(** * AgentPaymentVault: a shallow embedding of the vault contract

    The contract [AgentPaymentVault] (Solidity 0.8.20) keeps, for every fund,
    an accounting balance, two spending limits, a per-day spend counter and a
    table of authorised bots; bots debit a fund to pay a recipient, a platform
    fee goes to a treasury, and every debit is pushed on a ledger.

    Modelling choices, all read off the contract:
    - [uint256] and [address] values are integers of [Z]; arithmetic is the
      checked arithmetic of Solidity 0.8 (overflow, underflow and division by
      zero revert with a [Panic]);
    - a [mapping] is a [gmap] read with the zero value as default;
    - a function body is a computation in a state-and-error monad over the
      [World] (vault storage plus the state of the token contract);
      [call] runs a body as a transaction: when the body reverts, the world
      is the one before the call;
    - the token behind [IERC20] is an interface: a type class.  Events are
      not modelled (no property below reads the log), [nonReentrant] is
      the identity since the token of the model does not call back, and of
      [Ownable] only the [onlyOwner] check is kept (the inherited functions
      that hand over ownership write [owner] and nothing else). *)

From Stdlib Require Import ZArith Lia ZifyBool List Bool.
From stdpp Require Import gmap strings list fin_maps.

Local Open Scope string_scope.
Local Open Scope list_scope.
Local Open Scope Z_scope.

(** ** Machine values *)

Abbreviation address := Z.
Abbreviation uint256 := Z.

Definition MAX_UINT256 : Z := 2 ^ 256 - 1.

Definition is_uint256 (x : Z) : Prop := 0 <= x <= MAX_UINT256.

(** [1 days] of Solidity, in seconds. *)
Definition ONE_DAY : Z := 86400.

(** Amounts of the test suite: units with six decimals. *)
Definition USDC_DECIMALS : Z := 6.
Definition dollars (n : Z) : uint256 := n * 10 ^ USDC_DECIMALS.

(** ** Failures *)

Inductive Error : Type :=
| Revert (reason : string)
| Panic (code : Z).

Inductive Result (A : Type) : Type :=
| Ok (a : A)
| Err (e : Error).

Arguments Ok {A} a.
Arguments Err {A} e.

(** Panic codes of the compiler. *)
Definition PANIC_ARITH : Z := 17.    (* 0x11 *)
Definition PANIC_DIV0 : Z := 18.     (* 0x12 *)

(** ** Storage layout *)

Record FundAccount : Type := mkFundAccount {
  balance : uint256;
  dailySpendingLimit : uint256;
  perTransactionLimit : uint256;
  todaySpent : uint256;
  lastResetDay : uint256;
  authorizedBots : gmap Z bool
}.

Record Purchase : Type := mkPurchase {
  fund : address;
  bot : address;
  recipient : address;
  amount : uint256;
  fee : uint256;
  timestamp : uint256;
  metadata : string
}.

Record Vault : Type := mkVault {
  this : address;
  usdc : address;
  owner : address;
  platformFeeBps : uint256;
  treasury : address;
  fundAccounts : gmap Z FundAccount;
  purchases : list Purchase;
  fundPurchaseIndices : gmap Z (list Z)
}.

Definition MAX_PLATFORM_FEE_BPS : Z := 1000.
Definition BPS_DIVISOR : Z := 10000.

(** The value of a storage slot never written: all fields zero. *)
Definition zeroAccount : FundAccount :=
  mkFundAccount 0 0 0 0 0 ∅.

(** [fundAccounts[f]] *)
Definition accountOf (v : Vault) (f : address) : FundAccount :=
  default zeroAccount (fundAccounts v !! f).

(** [account.authorizedBots[b]] *)
Definition botFlag (a : FundAccount) (b : address) : bool :=
  default false (authorizedBots a !! b).

(** [fundPurchaseIndices[f]] *)
Definition indicesOf (v : Vault) (f : address) : list Z :=
  default [] (fundPurchaseIndices v !! f).

Definition setAccount (f : address) (a : FundAccount) (v : Vault) : Vault :=
  mkVault (this v) (usdc v) (owner v) (platformFeeBps v) (treasury v)
          (<[f := a]> (fundAccounts v)) (purchases v) (fundPurchaseIndices v).

(** ** The token interface

    Both calls name the caller first.  A call either reverts ([Err]) or
    returns a flag together with the new token state. *)

Class IERC20 (T : Type) : Type := {
  transfer : address -> address -> uint256 -> T -> Result (bool * T);
  transferFrom : address -> address -> address -> uint256 -> T -> Result (bool * T)
}.

Declare Scope vault_scope.

Section VaultCode.

Context {T : Type} `{Token : IERC20 T}.

Record World : Type := mkWorld {
  vault : Vault;
  token : T
}.

(** ** The monad of function bodies *)

Definition M (A : Type) : Type := World -> Result A * World.

Definition ret {A} (a : A) : M A := fun w => (Ok a, w).

Definition bind {A B} (m : M A) (f : A -> M B) : M B :=
  fun w => match m w with
           | (Ok a, w') => f a w'
           | (Err e, w') => (Err e, w')
           end.

Definition fail {A} (e : Error) : M A := fun w => (Err e, w).

Definition require (c : bool) (reason : string) : M unit :=
  if c then ret tt else fail (Revert reason).

Definition when (c : bool) (m : M unit) : M unit :=
  if c then m else ret tt.

Definition sload {A} (proj : Vault -> A) : M A :=
  fun w => (Ok (proj (vault w)), w).

Definition sstore (upd : Vault -> Vault) : M unit :=
  fun w => (Ok tt, mkWorld (upd (vault w)) (token w)).

(** A transaction: a reverted body leaves the world as it was. *)
Definition call {A} (m : M A) : World -> Result A * World :=
  fun w => match m w with
           | (Ok a, w') => (Ok a, w')
           | (Err e, _) => (Err e, w)
           end.

Notation "x <- m ;; k" := (bind m (fun x => k))
  (at level 100, m at next level, k at level 200, right associativity)
  : vault_scope.
Notation "m ;; k" := (bind m (fun _ => k))
  (at level 100, k at level 200, right associativity) : vault_scope.
Local Open Scope vault_scope.

(** ** Checked arithmetic of Solidity 0.8 *)

Definition checked_add (a b : uint256) : M uint256 :=
  if a + b <=? MAX_UINT256 then ret (a + b) else fail (Panic PANIC_ARITH).

Definition checked_sub (a b : uint256) : M uint256 :=
  if b <=? a then ret (a - b) else fail (Panic PANIC_ARITH).

Definition checked_mul (a b : uint256) : M uint256 :=
  if a * b <=? MAX_UINT256 then ret (a * b) else fail (Panic PANIC_ARITH).

Definition checked_div (a b : uint256) : M uint256 :=
  if b =? 0 then fail (Panic PANIC_DIV0) else ret (a / b).

(** ** Access to one account through its storage pointer *)

Definition aload {A} (f : address) (proj : FundAccount -> A) : M A :=
  sload (fun v => proj (accountOf v f)).

Definition astore (f : address) (upd : FundAccount -> FundAccount) : M unit :=
  sstore (fun v => setAccount f (upd (accountOf v f)) v).

Definition set_balance (x : uint256) (a : FundAccount) : FundAccount :=
  mkFundAccount x (dailySpendingLimit a) (perTransactionLimit a)
                (todaySpent a) (lastResetDay a) (authorizedBots a).

Definition set_limits (d p : uint256) (a : FundAccount) : FundAccount :=
  mkFundAccount (balance a) d p (todaySpent a) (lastResetDay a)
                (authorizedBots a).

Definition set_todaySpent (x : uint256) (a : FundAccount) : FundAccount :=
  mkFundAccount (balance a) (dailySpendingLimit a) (perTransactionLimit a)
                x (lastResetDay a) (authorizedBots a).

Definition set_lastResetDay (x : uint256) (a : FundAccount) : FundAccount :=
  mkFundAccount (balance a) (dailySpendingLimit a) (perTransactionLimit a)
                (todaySpent a) x (authorizedBots a).

Definition set_bot (b : address) (flag : bool) (a : FundAccount) : FundAccount :=
  mkFundAccount (balance a) (dailySpendingLimit a) (perTransactionLimit a)
                (todaySpent a) (lastResetDay a) (<[b := flag]> (authorizedBots a)).

Definition push_purchase (p : Purchase) (v : Vault) : Vault :=
  mkVault (this v) (usdc v) (owner v) (platformFeeBps v) (treasury v)
          (fundAccounts v) (purchases v ++ [p]) (fundPurchaseIndices v).

Definition push_index (f : address) (id : uint256) (v : Vault) : Vault :=
  mkVault (this v) (usdc v) (owner v) (platformFeeBps v) (treasury v)
          (fundAccounts v) (purchases v)
          (<[f := indicesOf v f ++ [id]]> (fundPurchaseIndices v)).

Definition set_platformFeeBps (x : uint256) (v : Vault) : Vault :=
  mkVault (this v) (usdc v) (owner v) x (treasury v)
          (fundAccounts v) (purchases v) (fundPurchaseIndices v).

Definition set_treasury (x : address) (v : Vault) : Vault :=
  mkVault (this v) (usdc v) (owner v) (platformFeeBps v) x
          (fundAccounts v) (purchases v) (fundPurchaseIndices v).

(** ** Calls into the token, made by the vault ([msg.sender] is [this]) *)

Definition usdc_transfer (to : address) (amt : uint256) : M bool :=
  fun w => match transfer (this (vault w)) to amt (token w) with
           | Ok (b, t') => (Ok b, mkWorld (vault w) t')
           | Err e => (Err e, w)
           end.

Definition usdc_transferFrom (from to : address) (amt : uint256) : M bool :=
  fun w => match transferFrom (this (vault w)) from to amt (token w) with
           | Ok (b, t') => (Ok b, mkWorld (vault w) t')
           | Err e => (Err e, w)
           end.

(** ** The contract's functions

    Every function takes [msg.sender] first; [purchaseOnBehalf] also takes
    [block.timestamp]. *)

Definition deposit (msg_sender : address) (amount : uint256) : M unit :=
  require (amount >? 0) "Amount must be greater than 0" ;;
  self <- sload this ;;
  ok <- usdc_transferFrom msg_sender self amount ;;
  require ok "Transfer failed" ;;
  b <- aload msg_sender balance ;;
  b' <- checked_add b amount ;;
  astore msg_sender (set_balance b').

Definition withdraw (msg_sender : address) (amount : uint256) : M unit :=
  require (amount >? 0) "Amount must be greater than 0" ;;
  b <- aload msg_sender balance ;;
  require (b >=? amount) "Insufficient balance" ;;
  b' <- checked_sub b amount ;;
  astore msg_sender (set_balance b') ;;
  ok <- usdc_transfer msg_sender amount ;;
  require ok "Transfer failed".

Definition authorizeBot (msg_sender : address) (bot : address) : M unit :=
  require (negb (bot =? 0)) "Invalid bot address" ;;
  flag <- aload msg_sender (fun a => botFlag a bot) ;;
  require (negb flag) "Bot already authorized" ;;
  astore msg_sender (set_bot bot true).

Definition revokeBot (msg_sender : address) (bot : address) : M unit :=
  flag <- aload msg_sender (fun a => botFlag a bot) ;;
  require flag "Bot not authorized" ;;
  astore msg_sender (set_bot bot false).

Definition setLimits (msg_sender : address) (dailyLimit perTxLimit : uint256)
  : M unit :=
  require ((perTxLimit <=? dailyLimit) || (dailyLimit =? 0))
          "Per-tx limit exceeds daily limit" ;;
  astore msg_sender (set_limits dailyLimit perTxLimit).

Definition _resetDailyLimitIfNeeded (f : address) (block_timestamp : uint256)
  : M unit :=
  currentDay <- checked_div block_timestamp ONE_DAY ;;
  last <- aload f lastResetDay ;;
  when (currentDay >? last)
       (astore f (set_todaySpent 0) ;;
        astore f (set_lastResetDay currentDay)).

(** [(amount * platformFeeBps) / BPS_DIVISOR], the fee line of
    [purchaseOnBehalf]. *)
Definition computeFee (amount : uint256) : M uint256 :=
  bps <- sload platformFeeBps ;;
  product <- checked_mul amount bps ;;
  checked_div product BPS_DIVISOR.

Definition purchaseOnBehalf (msg_sender : address) (fund recipient : address)
    (amount : uint256) (metadata : string) (block_timestamp : uint256)
  : M uint256 :=
  require (negb (recipient =? 0)) "Invalid recipient" ;;
  require (amount >? 0) "Amount must be greater than 0" ;;
  flag <- aload fund (fun a => botFlag a msg_sender) ;;
  require flag "Bot not authorized" ;;
  _resetDailyLimitIfNeeded fund block_timestamp ;;
  perTx <- aload fund perTransactionLimit ;;
  when (perTx >? 0)
       (require (amount <=? perTx) "Exceeds per-transaction limit") ;;
  daily <- aload fund dailySpendingLimit ;;
  when (daily >? 0)
       (spent <- aload fund todaySpent ;;
        planned <- checked_add spent amount ;;
        require (planned <=? daily) "Exceeds daily limit") ;;
  fee <- computeFee amount ;;
  totalAmount <- checked_add amount fee ;;
  b <- aload fund balance ;;
  require (b >=? totalAmount) "Insufficient balance" ;;
  b' <- checked_sub b totalAmount ;;
  astore fund (set_balance b') ;;
  spent <- aload fund todaySpent ;;
  spent' <- checked_add spent amount ;;
  astore fund (set_todaySpent spent') ;;
  paid <- usdc_transfer recipient amount ;;
  require paid "Transfer to recipient failed" ;;
  dest <- sload treasury ;;
  paidFee <- usdc_transfer dest fee ;;
  require paidFee "Fee transfer failed" ;;
  ledger <- sload purchases ;;
  let purchaseId := Z.of_nat (length ledger) in
  sstore (push_purchase
            (mkPurchase fund msg_sender recipient amount fee
                        block_timestamp metadata)) ;;
  sstore (push_index fund purchaseId) ;;
  ret purchaseId.

Definition setPlatformFee (msg_sender : address) (newFeeBps : uint256)
  : M unit :=
  o <- sload owner ;;
  require (o =? msg_sender) "Ownable: caller is not the owner" ;;
  require (newFeeBps <=? MAX_PLATFORM_FEE_BPS) "Fee too high" ;;
  sstore (set_platformFeeBps newFeeBps).

Definition setTreasury (msg_sender : address) (newTreasury : address)
  : M unit :=
  o <- sload owner ;;
  require (o =? msg_sender) "Ownable: caller is not the owner" ;;
  require (negb (newTreasury =? 0)) "Invalid treasury address" ;;
  sstore (set_treasury newTreasury).

(** *** Views *)

Definition getFundAccount (f : address)
  : M (uint256 * uint256 * uint256 * uint256 * uint256) :=
  a <- sload (fun v => accountOf v f) ;;
  ret (balance a, dailySpendingLimit a, perTransactionLimit a,
       todaySpent a, lastResetDay a).

Definition isBotAuthorized (f b : address) : M bool :=
  aload f (fun a => botFlag a b).

Definition getFundPurchases (f : address) : M (list uint256) :=
  sload (fun v => indicesOf v f).

Definition getTotalPurchases : M uint256 :=
  sload (fun v => Z.of_nat (length (purchases v))).

Definition PANIC_INDEX : Z := 50.    (* 0x32 *)

Definition getPurchase (purchaseId : uint256) : M Purchase :=
  ledger <- sload purchases ;;
  require (purchaseId <? Z.of_nat (length ledger)) "Invalid purchase ID" ;;
  match ledger !! Z.to_nat purchaseId with
  | Some p => ret p
  | None => fail (Panic PANIC_INDEX)
  end.

Definition getCurrentDay (block_timestamp : uint256) : M uint256 :=
  checked_div block_timestamp ONE_DAY.

(** ** Transactions *)

Inductive Op : Type :=
| Deposit (amount : uint256)
| Withdraw (amount : uint256)
| AuthorizeBot (bot : address)
| RevokeBot (bot : address)
| SetLimits (dailyLimit perTxLimit : uint256)
| PurchaseOnBehalf (fund recipient : address) (amount : uint256)
                   (metadata : string)
| SetPlatformFee (newFeeBps : uint256)
| SetTreasury (newTreasury : address).

Record Tx : Type := mkTx {
  tx_sender : address;
  tx_time : uint256;
  tx_op : Op
}.

Definition unit_result (m : M unit) : M (option uint256) :=
  _ <- m ;; ret None.

Definition dispatch (tx : Tx) : M (option uint256) :=
  match tx_op tx with
  | Deposit a => unit_result (deposit (tx_sender tx) a)
  | Withdraw a => unit_result (withdraw (tx_sender tx) a)
  | AuthorizeBot b => unit_result (authorizeBot (tx_sender tx) b)
  | RevokeBot b => unit_result (revokeBot (tx_sender tx) b)
  | SetLimits d p => unit_result (setLimits (tx_sender tx) d p)
  | PurchaseOnBehalf f r a md =>
      id <- purchaseOnBehalf (tx_sender tx) f r a md (tx_time tx) ;;
      ret (Some id)
  | SetPlatformFee x => unit_result (setPlatformFee (tx_sender tx) x)
  | SetTreasury x => unit_result (setTreasury (tx_sender tx) x)
  end.

(** One transaction, with the outcome seen by the caller. *)
Definition exec (tx : Tx) (w : World) : Result (option uint256) * World :=
  call (dispatch tx) w.

(** A block of transactions, in order. *)
Fixpoint run (txs : list Tx) (w : World) : World :=
  match txs with
  | [] => w
  | tx :: rest => run rest (snd (exec tx w))
  end.

(** The fund whose account a transaction works on, if any. *)
Definition subject (tx : Tx) : option address :=
  match tx_op tx with
  | PurchaseOnBehalf f _ _ _ => Some f
  | SetPlatformFee _ | SetTreasury _ => None
  | _ => Some (tx_sender tx)
  end.

End VaultCode.

Arguments World T : clear implicits.
Arguments M T A : clear implicits.

Notation "x <- m ;; k" := (bind m (fun x => k))
  (at level 100, m at next level, k at level 200, right associativity)
  : vault_scope.
Notation "m ;; k" := (bind m (fun _ => k))
  (at level 100, k at level 200, right associativity) : vault_scope.

(** ** Vocabulary of the properties *)

Section Vocabulary.

Context {T : Type} `{Token : IERC20 T}.

Local Open Scope vault_scope.

(** [wp m Qok Qerr w]: the body [m], started in [w], ends in a state and
    with a result that satisfy [Qok], or fails with an error and in a state
    that satisfy [Qerr]. *)
Definition wp {A} (m : M T A) (Qok : A -> World T -> Prop)
    (Qerr : Error -> World T -> Prop) (w : World T) : Prop :=
  match m w with
  | (Ok a, w') => Qok a w'
  | (Err e, w') => Qerr e w'
  end.

Definition dayIndex (ts : uint256) : uint256 := ts / ONE_DAY.

(** The account as [_resetDailyLimitIfNeeded] leaves it. *)
Definition refreshed (a : FundAccount) (ts : uint256) : FundAccount :=
  if dayIndex ts >? lastResetDay a
  then set_lastResetDay (dayIndex ts) (set_todaySpent 0 a)
  else a.

(** The value of [(amount * platformFeeBps) / BPS_DIVISOR] when the product
    fits. *)
Definition feeOf (v : Vault) (amount : uint256) : uint256 :=
  amount * platformFeeBps v / BPS_DIVISOR.

(** The checks of [purchaseOnBehalf] that come before the transfers and do
    not look at the recipient. *)
Definition admissible (v : Vault) (sender f : address) (amount ts : uint256)
  : Prop :=
  let a := refreshed (accountOf v f) ts in
  0 < amount
  /\ botFlag (accountOf v f) sender = true
  /\ (0 < perTransactionLimit a -> amount <= perTransactionLimit a)
  /\ (0 < dailySpendingLimit a ->
      todaySpent a + amount <= dailySpendingLimit a)
  /\ todaySpent a + amount <= MAX_UINT256
  /\ amount * platformFeeBps v <= MAX_UINT256
  /\ amount + feeOf v amount <= MAX_UINT256
  /\ amount + feeOf v amount <= balance a.

(** [Some t'] when the token moves [amt] from the vault to [to]. *)
Definition pays (self to : address) (amt : uint256) (t : T) : option T :=
  match transfer self to amt t with
  | Ok (true, t') => Some t'
  | _ => None
  end.

(** The error the vault reports for a token call that did not pay. *)
Definition refusal (reason : string) (r : Result (bool * T)) : Error :=
  match r with
  | Err e => e
  | Ok _ => Revert reason
  end.

(** The account after a debit of [amount] plus fee. *)
Definition debited (v : Vault) (f : address) (amount ts : uint256)
  : FundAccount :=
  let a := refreshed (accountOf v f) ts in
  set_todaySpent (todaySpent a + amount)
    (set_balance (balance a - (amount + feeOf v amount)) a).

(** The vault after a committed purchase. *)
Definition purchased (v : Vault) (sender f r : address) (amount : uint256)
    (md : string) (ts : uint256) : Vault :=
  push_index f (Z.of_nat (length (purchases v)))
    (push_purchase (mkPurchase f sender r amount (feeOf v amount) ts md)
       (setAccount f (debited v f amount ts) v)).

(** The vault as [_resetDailyLimitIfNeeded] leaves it. *)
Definition refresh (v : Vault) (f : address) (ts : uint256) : Vault :=
  if dayIndex ts >? lastResetDay (accountOf v f)
  then setAccount f (refreshed (accountOf v f) ts) v
  else v.

(** The token pays a list of transfers of the vault, in order. *)
Fixpoint settle (self : address) (xs : list (address * uint256)) (t : T)
  : option T :=
  match xs with
  | [] => Some t
  | (to, amt) :: rest =>
      match pays self to amt t with
      | Some t' => settle self rest t'
      | None => None
      end
  end.

(** What a committed transaction does to the vault's storage. *)
Definition effect (tx : Tx) (v : Vault) : Vault :=
  let s := tx_sender tx in
  let a := accountOf v s in
  match tx_op tx with
  | Deposit x => setAccount s (set_balance (balance a + x) a) v
  | Withdraw x => setAccount s (set_balance (balance a - x) a) v
  | AuthorizeBot b => setAccount s (set_bot b true a) v
  | RevokeBot b => setAccount s (set_bot b false a) v
  | SetLimits d p => setAccount s (set_limits d p a) v
  | PurchaseOnBehalf f r x md => purchased v s f r x md (tx_time tx)
  | SetPlatformFee x => set_platformFeeBps x v
  | SetTreasury x => set_treasury x v
  end.

(** What a committed transaction returns. *)
Definition returned (tx : Tx) (v : Vault) : option uint256 :=
  match tx_op tx with
  | PurchaseOnBehalf _ _ _ _ => Some (Z.of_nat (length (purchases v)))
  | _ => None
  end.

(** Bookkeeping over a block of transactions. *)

Definition committed (tx : Tx) (w : World T) : bool :=
  match fst (exec tx w) with
  | Ok _ => true
  | Err _ => false
  end.

(** The fee recorded in the ledger for the purchase [tx] appended. *)
Definition feeCharged (tx : Tx) (w : World T) : uint256 :=
  match exec tx w with
  | (Ok (Some id), w') =>
      default 0 (fee <$> purchases (vault w') !! Z.to_nat id)
  | _ => 0
  end.

Definition deposited (F : address) (tx : Tx) (w : World T) : Z :=
  match tx_op tx with
  | Deposit x => if committed tx w && (tx_sender tx =? F) then x else 0
  | _ => 0
  end.

Definition withdrawn (F : address) (tx : Tx) (w : World T) : Z :=
  match tx_op tx with
  | Withdraw x => if committed tx w && (tx_sender tx =? F) then x else 0
  | _ => 0
  end.

Definition spentOn (F : address) (tx : Tx) (w : World T) : Z :=
  match tx_op tx with
  | PurchaseOnBehalf f _ x _ =>
      if committed tx w && (f =? F) then x + feeCharged tx w else 0
  | _ => 0
  end.

(** Sum of [g] over a block, each transaction seen in the world it ran in. *)
Fixpoint total (g : Tx -> World T -> Z) (txs : list Tx) (w : World T) : Z :=
  match txs with
  | [] => 0
  | tx :: rest => g tx w + total g rest (snd (exec tx w))
  end.

(** The purchase ids handed out in a block, in order. *)
Fixpoint issued (txs : list Tx) (w : World T) : list uint256 :=
  match txs with
  | [] => []
  | tx :: rest =>
      match fst (exec tx w) with
      | Ok (Some id) => id :: issued rest (snd (exec tx w))
      | _ => issued rest (snd (exec tx w))
      end
  end.

Definition count (w : World T) : uint256 :=
  Z.of_nat (length (purchases (vault w))).

End Vocabulary.

(** The constructor: the deployer becomes the owner, the fee starts at 2%. *)
Definition constructor (deployer self _usdc _treasury : address)
  : Result Vault :=
  if _usdc =? 0 then Err (Revert "Invalid USDC address")
  else if _treasury =? 0 then Err (Revert "Invalid treasury address")
  else Ok (mkVault self _usdc deployer 200 _treasury ∅ [] ∅).

(** ** A token for the examples

    [MockUSDC] adds minting to the ERC20 base contract of OpenZeppelin, a
    library outside the repository.  The theorems below hold for every
    [IERC20] instance; this instance, which follows the usual behaviour of
    that base contract, is what the concrete examples run against. *)

Module MockUSDC.

Record State : Type := mkState {
  balances : gmap Z Z;
  allowances : gmap (Z * Z) Z;
  totalSupply : uint256
}.

Definition balanceOf (t : State) (a : address) : uint256 :=
  default 0 (balances t !! a).

Definition allowance (t : State) (holder spender : address) : uint256 :=
  default 0 (allowances t !! (holder, spender)).

Definition set_balanceOf (a : address) (x : uint256) (t : State) : State :=
  mkState (<[a := x]> (balances t)) (allowances t) (totalSupply t).

Definition _transfer (from to : address) (amt : uint256) (t : State)
  : Result State :=
  if from =? 0 then Err (Revert "ERC20: transfer from the zero address")
  else if to =? 0 then Err (Revert "ERC20: transfer to the zero address")
  else if balanceOf t from <? amt
       then Err (Revert "ERC20: transfer amount exceeds balance")
  else
    let t1 := set_balanceOf from (balanceOf t from - amt) t in
    Ok (set_balanceOf to (balanceOf t1 to + amt) t1).

Definition approve (caller spender : address) (amt : uint256) (t : State)
  : Result State :=
  if caller =? 0 then Err (Revert "ERC20: approve from the zero address")
  else if spender =? 0 then Err (Revert "ERC20: approve to the zero address")
  else Ok (mkState (balances t) (<[(caller, spender) := amt]> (allowances t))
                   (totalSupply t)).

Definition _spendAllowance (holder spender : address) (amt : uint256)
    (t : State) : Result State :=
  let current := allowance t holder spender in
  if current =? MAX_UINT256 then Ok t
  else if current <? amt then Err (Revert "ERC20: insufficient allowance")
  else approve holder spender (current - amt) t.

Definition publicMint (to : address) (amt : uint256) (t : State)
  : Result State :=
  if to =? 0 then Err (Revert "ERC20: mint to the zero address")
  else if totalSupply t + amt >? MAX_UINT256 then Err (Panic PANIC_ARITH)
  else Ok (mkState (<[to := balanceOf t to + amt]> (balances t))
                   (allowances t) (totalSupply t + amt)).

Definition publicMintDollars (to : address) (dollarAmount : uint256)
    (t : State) : Result State :=
  if dollarAmount * 10 ^ 6 >? MAX_UINT256 then Err (Panic PANIC_ARITH)
  else publicMint to (dollarAmount * 10 ^ 6) t.

Definition empty : State := mkState ∅ ∅ 0.

#[global] Instance erc20 : IERC20 State := {
  transfer caller to amt t :=
    match _transfer caller to amt t with
    | Ok t' => Ok (true, t')
    | Err e => Err e
    end;
  transferFrom caller from to amt t :=
    match _spendAllowance from caller amt t with
    | Ok t1 =>
        match _transfer from to amt t1 with
        | Ok t' => Ok (true, t')
        | Err e => Err e
        end
    | Err e => Err e
    end
}.

End MockUSDC.

(** ** Concrete actors of the examples *)

Module Demo.
Import MockUSDC.

Definition deployer : address := 1.
Definition vaultAddr : address := 2.
Definition usdcAddr : address := 3.
Definition treasuryAddr : address := 4.
Definition fund1 : address := 11.
Definition fund2 : address := 12.
Definition bot1 : address := 21.
Definition recipient1 : address := 31.

Definition or_else {A} (d : A) (r : Result A) : A :=
  match r with Ok a => a | Err _ => d end.

(** [fund1] holds 10000.00 units and has approved the vault for all of it,
    as the test suite's set-up does. *)
Definition token0 : State :=
  or_else empty
    (match publicMintDollars fund1 10000 empty with
     | Ok t => approve fund1 vaultAddr (dollars 10000) t
     | Err e => Err e
     end).

Definition vault0 : Vault :=
  or_else (mkVault 0 0 0 0 0 ∅ [] ∅)
          (constructor deployer vaultAddr usdcAddr treasuryAddr).

Definition world0 : World State := mkWorld vault0 token0.

Definition noon : uint256 := 20000 * ONE_DAY + 43200.

Definition tx (sender : address) (op : Op) : Tx := mkTx sender noon op.

Definition setup : list Tx :=
  [tx fund1 (Deposit (dollars 1000));
   tx fund1 (AuthorizeBot bot1);
   tx fund1 (SetLimits (dollars 500) (dollars 150))].

Definition buy150 : Tx :=
  tx bot1 (PurchaseOnBehalf fund1 recipient1 (dollars 150) "svc").

(** After a deposit of 1000.00 and the authorisation of [bot1]. *)
Definition funded : World State :=
  run [tx fund1 (Deposit (dollars 1000)); tx fund1 (AuthorizeBot bot1)]
      world0.

(** The same with limits 500.00 a day and 150.00 a purchase. *)
Definition limited : World State := run setup world0.

(** The same with limits 300.00 a day and 150.00 a purchase. *)
Definition tight : World State :=
  run [tx fund1 (Deposit (dollars 1000)); tx fund1 (AuthorizeBot bot1);
       tx fund1 (SetLimits (dollars 300) (dollars 150))] world0.

(** The books of [limited] over a token in which the vault holds nothing:
    every transfer out of the vault is refused. *)
Definition unbacked : World State := mkWorld (vault limited) empty.

(** A fund that minted and deposited [2 ^ 255] units, with limits
    [2 ^ 251] a day and [2 ^ 250] a purchase. *)
Definition whale : World State :=
  run [tx fund1 (Deposit (2 ^ 255)); tx fund1 (AuthorizeBot bot1);
       tx fund1 (SetLimits (2 ^ 251) (2 ^ 250))]
      (mkWorld vault0
         (or_else empty
            (match publicMint fund1 (2 ^ 255) empty with
             | Ok t => approve fund1 vaultAddr (2 ^ 255) t
             | Err e => Err e
             end))).

End Demo.

(** * The conditions of a commit, and what holds of every reachable world *)

Section MoreVocabulary.

Context {T : Type} `{Token : IERC20 T}.

(** The conditions under which the body of a transaction gets past every
    [require] and every checked operation of the vault itself. *)
Definition guard (tx : Tx) (v : Vault) : Prop :=
  let s := tx_sender tx in
  let a := accountOf v s in
  match tx_op tx with
  | Deposit x => 0 < x /\ balance a + x <= MAX_UINT256
  | Withdraw x => 0 < x <= balance a
  | AuthorizeBot b => b <> 0 /\ botFlag a b = false
  | RevokeBot b => botFlag a b = true
  | SetLimits d p => p <= d \/ d = 0
  | PurchaseOnBehalf f r x md => r <> 0 /\ admissible v s f x (tx_time tx)
  | SetPlatformFee x => owner v = s /\ x <= MAX_PLATFORM_FEE_BPS
  | SetTreasury x => owner v = s /\ x <> 0
  end.

(** Arguments that are values of their Solidity types. *)
Definition wf_tx (tx : Tx) : Prop :=
  is_uint256 (tx_time tx)
  /\ match tx_op tx with
     | Deposit x | Withdraw x | SetPlatformFee x => is_uint256 x
     | SetLimits d p => is_uint256 d /\ is_uint256 p
     | PurchaseOnBehalf _ _ x _ => is_uint256 x
     | AuthorizeBot _ | RevokeBot _ | SetTreasury _ => True
     end.

Definition wf_account (a : FundAccount) : Prop :=
  is_uint256 (balance a)
  /\ is_uint256 (dailySpendingLimit a)
  /\ is_uint256 (perTransactionLimit a)
  /\ is_uint256 (todaySpent a)
  /\ is_uint256 (lastResetDay a).

(** A world reached from a deployment by a block of well-typed
    transactions. *)
Definition reachable (w : World T) : Prop :=
  exists deployer self _usdc _treasury v0 tok txs,
    constructor deployer self _usdc _treasury = Ok v0
    /\ Forall wf_tx txs
    /\ w = run txs (mkWorld v0 tok).

(** What holds of the storage in every reachable world: the fee rate is at
    most 10%, the treasury is not null, every field of every account is a
    [uint256], and a non-zero daily limit is not below the per-transaction
    limit. *)
Definition sound (v : Vault) : Prop :=
  0 <= platformFeeBps v <= MAX_PLATFORM_FEE_BPS
  /\ treasury v <> 0
  /\ forall f,
       wf_account (accountOf v f)
       /\ (dailySpendingLimit (accountOf v f) = 0
           \/ perTransactionLimit (accountOf v f)
              <= dailySpendingLimit (accountOf v f)).

(** The positions of the ledger whose record is for fund [F], from
    position [i] on. *)
Fixpoint positionsFrom (F : address) (i : nat) (ps : list Purchase)
  : list uint256 :=
  match ps with
  | [] => []
  | p :: rest =>
      if fund p =? F then Z.of_nat i :: positionsFrom F (S i) rest
      else positionsFrom F (S i) rest
  end.

(** What every record of the ledger satisfies. *)
Definition well_recorded (p : Purchase) : Prop :=
  0 < amount p /\ recipient p <> 0 /\ 0 <= fee p /\ 10 * fee p <= amount p.

End MoreVocabulary.

(** * Storage lemmas *)

Lemma accountOf_setAccount_eq f a v : accountOf (setAccount f a v) f = a.
Proof. unfold accountOf, setAccount; simpl. by rewrite lookup_insert_eq. Qed.

Lemma accountOf_setAccount_ne f g a v :
  f <> g -> accountOf (setAccount f a v) g = accountOf v g.
Proof.
  intros Hne. unfold accountOf, setAccount; simpl.
  by rewrite lookup_insert_ne.
Qed.

Lemma setAccount_setAccount f a b v :
  setAccount f a (setAccount f b v) = setAccount f a v.
Proof. unfold setAccount; simpl. by rewrite insert_insert_eq. Qed.

Lemma accountOf_push_purchase p v f :
  accountOf (push_purchase p v) f = accountOf v f.
Proof. reflexivity. Qed.

Lemma accountOf_push_index g id v f :
  accountOf (push_index g id v) f = accountOf v f.
Proof. reflexivity. Qed.

Lemma indicesOf_setAccount f a v g :
  indicesOf (setAccount f a v) g = indicesOf v g.
Proof. reflexivity. Qed.

Lemma indicesOf_push_purchase p v g :
  indicesOf (push_purchase p v) g = indicesOf v g.
Proof. reflexivity. Qed.

Lemma indicesOf_push_index_eq f id v :
  indicesOf (push_index f id v) f = indicesOf v f ++ [id].
Proof. unfold indicesOf at 1, push_index; simpl. by rewrite lookup_insert_eq. Qed.

Lemma indicesOf_push_index_ne f g id v :
  f <> g -> indicesOf (push_index f id v) g = indicesOf v g.
Proof.
  intros Hne. unfold indicesOf, push_index; simpl.
  by rewrite lookup_insert_ne.
Qed.

Lemma botFlag_set_bot_eq b flag a : botFlag (set_bot b flag a) b = flag.
Proof. unfold botFlag, set_bot; simpl. by rewrite lookup_insert_eq. Qed.

Lemma botFlag_set_bot_ne b c flag a :
  b <> c -> botFlag (set_bot b flag a) c = botFlag a c.
Proof.
  intros Hne. unfold botFlag, set_bot; simpl. by rewrite lookup_insert_ne.
Qed.

(** Fields that an update does not touch. *)

Lemma this_setAccount f a v : this (setAccount f a v) = this v.
Proof. reflexivity. Qed.

Lemma platformFeeBps_setAccount f a v :
  platformFeeBps (setAccount f a v) = platformFeeBps v.
Proof. reflexivity. Qed.

Lemma treasury_setAccount f a v : treasury (setAccount f a v) = treasury v.
Proof. reflexivity. Qed.

Lemma owner_setAccount f a v : owner (setAccount f a v) = owner v.
Proof. reflexivity. Qed.

Lemma purchases_setAccount f a v : purchases (setAccount f a v) = purchases v.
Proof. reflexivity. Qed.

Lemma purchases_push_purchase p v :
  purchases (push_purchase p v) = purchases v ++ [p].
Proof. reflexivity. Qed.

Lemma purchases_push_index f id v :
  purchases (push_index f id v) = purchases v.
Proof. reflexivity. Qed.

Lemma botFlag_set_balance x a b : botFlag (set_balance x a) b = botFlag a b.
Proof. reflexivity. Qed.

Lemma botFlag_set_todaySpent x a b :
  botFlag (set_todaySpent x a) b = botFlag a b.
Proof. reflexivity. Qed.

Lemma botFlag_set_lastResetDay x a b :
  botFlag (set_lastResetDay x a) b = botFlag a b.
Proof. reflexivity. Qed.

Lemma botFlag_set_limits d p a b : botFlag (set_limits d p a) b = botFlag a b.
Proof. reflexivity. Qed.

Lemma accountOf_set_platformFeeBps x v f :
  accountOf (set_platformFeeBps x v) f = accountOf v f.
Proof. reflexivity. Qed.

Lemma accountOf_set_treasury x v f :
  accountOf (set_treasury x v) f = accountOf v f.
Proof. reflexivity. Qed.

Lemma indicesOf_set_platformFeeBps x v f :
  indicesOf (set_platformFeeBps x v) f = indicesOf v f.
Proof. reflexivity. Qed.

Lemma indicesOf_set_treasury x v f :
  indicesOf (set_treasury x v) f = indicesOf v f.
Proof. reflexivity. Qed.

Lemma purchases_set_platformFeeBps x v :
  purchases (set_platformFeeBps x v) = purchases v.
Proof. reflexivity. Qed.

Lemma purchases_set_treasury x v :
  purchases (set_treasury x v) = purchases v.
Proof. reflexivity. Qed.

Create Rewrite HintDb vault.

#[global] Hint Rewrite accountOf_setAccount_eq setAccount_setAccount
  accountOf_push_purchase accountOf_push_index indicesOf_setAccount
  indicesOf_push_purchase indicesOf_push_index_eq botFlag_set_bot_eq
  this_setAccount platformFeeBps_setAccount treasury_setAccount
  owner_setAccount purchases_setAccount purchases_push_purchase
  purchases_push_index botFlag_set_balance botFlag_set_todaySpent
  botFlag_set_lastResetDay botFlag_set_limits
  accountOf_set_platformFeeBps accountOf_set_treasury
  indicesOf_set_platformFeeBps indicesOf_set_treasury
  purchases_set_platformFeeBps purchases_set_treasury
  : vault.
#[global] Hint Rewrite accountOf_setAccount_ne indicesOf_push_index_ne
  botFlag_set_bot_ne using congruence : vault.

(** * Reasoning about function bodies *)

Section Outcomes.

Context {T : Type} `{Token : IERC20 T}.

Local Open Scope vault_scope.

Lemma wp_bind {A B} (m : M T A) (f : A -> M T B) Qok Qerr (w : World T) :
  wp (bind m f) Qok Qerr w = wp m (fun a w' => wp (f a) Qok Qerr w') Qerr w.
Proof. unfold wp, bind. destruct (m w) as [[a|e] w']; reflexivity. Qed.

Lemma wp_ret {A} (a : A) Qok Qerr (w : World T) : wp (ret a) Qok Qerr w = Qok a w.
Proof. reflexivity. Qed.

Lemma wp_fail {A} e (Qok : A -> World T -> Prop) Qerr (w : World T) :
  wp (fail e) Qok Qerr w = Qerr e w.
Proof. reflexivity. Qed.

Lemma wp_require c reason Qok Qerr (w : World T) :
  wp (require c reason) Qok Qerr w
  = if c then Qok tt w else Qerr (Revert reason) w.
Proof. destruct c; reflexivity. Qed.

Lemma wp_when c m Qok Qerr (w : World T) :
  wp (when c m) Qok Qerr w = if c then wp m Qok Qerr w else Qok tt w.
Proof. destruct c; reflexivity. Qed.

Lemma wp_sload {A} (proj : Vault -> A) Qok Qerr (w : World T) :
  wp (sload proj) Qok Qerr w = Qok (proj (vault w)) w.
Proof. reflexivity. Qed.

Lemma wp_sstore upd Qok Qerr (w : World T) :
  wp (sstore upd) Qok Qerr w = Qok tt (mkWorld (upd (vault w)) (token w)).
Proof. reflexivity. Qed.

Lemma wp_aload {A} f (proj : FundAccount -> A) Qok Qerr (w : World T) :
  wp (aload f proj) Qok Qerr w = Qok (proj (accountOf (vault w) f)) w.
Proof. reflexivity. Qed.

Lemma wp_astore f upd Qok Qerr (w : World T) :
  wp (astore f upd) Qok Qerr w
  = Qok tt (mkWorld (setAccount f (upd (accountOf (vault w) f)) (vault w))
                    (token w)).
Proof. reflexivity. Qed.

Lemma wp_checked_add a b Qok Qerr (w : World T) :
  wp (checked_add a b) Qok Qerr w
  = if a + b <=? MAX_UINT256 then Qok (a + b) w
    else Qerr (Panic PANIC_ARITH) w.
Proof. unfold checked_add. destruct (a + b <=? MAX_UINT256); reflexivity. Qed.

Lemma wp_checked_sub a b Qok Qerr (w : World T) :
  wp (checked_sub a b) Qok Qerr w
  = if b <=? a then Qok (a - b) w else Qerr (Panic PANIC_ARITH) w.
Proof. unfold checked_sub. destruct (b <=? a); reflexivity. Qed.

Lemma wp_checked_mul a b Qok Qerr (w : World T) :
  wp (checked_mul a b) Qok Qerr w
  = if a * b <=? MAX_UINT256 then Qok (a * b) w
    else Qerr (Panic PANIC_ARITH) w.
Proof. unfold checked_mul. destruct (a * b <=? MAX_UINT256); reflexivity. Qed.

Lemma wp_checked_div a b Qok Qerr (w : World T) :
  wp (checked_div a b) Qok Qerr w
  = if b =? 0 then Qerr (Panic PANIC_DIV0) w else Qok (a / b) w.
Proof. unfold checked_div. destruct (b =? 0); reflexivity. Qed.

Lemma wp_usdc_transfer to amt Qok Qerr (w : World T) :
  wp (usdc_transfer to amt) Qok Qerr w
  = match transfer (this (vault w)) to amt (token w) with
    | Ok (b, t') => Qok b (mkWorld (vault w) t')
    | Err e => Qerr e w
    end.
Proof.
  unfold wp, usdc_transfer.
  destruct (transfer _ _ _ _) as [[b t']|e]; reflexivity.
Qed.

Lemma wp_usdc_transferFrom from to amt Qok Qerr (w : World T) :
  wp (usdc_transferFrom from to amt) Qok Qerr w
  = match transferFrom (this (vault w)) from to amt (token w) with
    | Ok (b, t') => Qok b (mkWorld (vault w) t')
    | Err e => Qerr e w
    end.
Proof.
  unfold wp, usdc_transferFrom.
  destruct (transferFrom _ _ _ _ _) as [[b t']|e]; reflexivity.
Qed.

(** From a computed outcome to an equation on [call], and back. *)
Lemma call_ok {A} (m : M T A) w a w' :
  wp m (fun x y => x = a /\ y = w') (fun _ _ => False) w ->
  call m w = (Ok a, w').
Proof.
  unfold wp, call. destruct (m w) as [[x|e] y]; [|tauto].
  intros [-> ->]. reflexivity.
Qed.

Lemma call_err {A} (m : M T A) w e :
  wp m (fun _ _ => False) (fun x _ => x = e) w ->
  call m w = (Err e, w).
Proof.
  unfold wp, call. destruct (m w) as [[x|x] y]; [tauto|].
  intros ->. reflexivity.
Qed.

Lemma call_ok_inv {A} (m : M T A) w a w' (Q : A -> World T -> Prop) :
  wp m Q (fun _ _ => True) w ->
  call m w = (Ok a, w') -> Q a w'.
Proof.
  unfold wp, call. destruct (m w) as [[x|x] y]; [|discriminate].
  intros HQ [= <- <-]. exact HQ.
Qed.

Lemma call_err_inv {A} (m : M T A) w e w' (Q : Error -> Prop) :
  wp m (fun _ _ => True) (fun x _ => Q x) w ->
  call m w = (Err e, w') -> Q e.
Proof.
  unfold wp, call. destruct (m w) as [[x|x] y]; [discriminate|].
  intros HQ [= <- _]. exact HQ.
Qed.

(** A reverted transaction changes nothing, whatever the body did. *)
Lemma call_err_world {A} (m : M T A) w e w' :
  call m w = (Err e, w') -> w' = w.
Proof.
  unfold call. destruct (m w) as [[x|x] y]; [discriminate|].
  intros [= _ <-]. reflexivity.
Qed.

End Outcomes.

(** * The purchase engine *)

Section PurchaseEngine.

Context {T : Type} `{Token : IERC20 T}.

Local Open Scope vault_scope.

Lemma accountOf_refresh_eq v f ts :
  accountOf (refresh v f ts) f = refreshed (accountOf v f) ts.
Proof.
  unfold refresh, refreshed.
  destruct (dayIndex ts >? lastResetDay (accountOf v f));
    [apply accountOf_setAccount_eq | reflexivity].
Qed.

Lemma accountOf_refresh_ne v f g ts :
  f <> g -> accountOf (refresh v f ts) g = accountOf v g.
Proof.
  intros Hne. unfold refresh.
  destruct (dayIndex ts >? lastResetDay (accountOf v f));
    [by apply accountOf_setAccount_ne | reflexivity].
Qed.

Lemma setAccount_refresh f a v ts :
  setAccount f a (refresh v f ts) = setAccount f a v.
Proof.
  unfold refresh.
  destruct (dayIndex ts >? lastResetDay (accountOf v f));
    [apply setAccount_setAccount | reflexivity].
Qed.

Lemma refresh_frame v f ts :
  this (refresh v f ts) = this v
  /\ platformFeeBps (refresh v f ts) = platformFeeBps v
  /\ treasury (refresh v f ts) = treasury v
  /\ purchases (refresh v f ts) = purchases v.
Proof.
  unfold refresh.
  destruct (dayIndex ts >? lastResetDay (accountOf v f)); repeat split.
Qed.

Lemma this_refresh v f ts : this (refresh v f ts) = this v.
Proof. apply refresh_frame. Qed.

Lemma platformFeeBps_refresh v f ts :
  platformFeeBps (refresh v f ts) = platformFeeBps v.
Proof. apply refresh_frame. Qed.

Lemma treasury_refresh v f ts : treasury (refresh v f ts) = treasury v.
Proof. apply refresh_frame. Qed.

Lemma purchases_refresh v f ts : purchases (refresh v f ts) = purchases v.
Proof. apply refresh_frame. Qed.

(** The reset touches the spend counter and the day, nothing else. *)
Lemma refreshed_frame a ts :
  balance (refreshed a ts) = balance a
  /\ dailySpendingLimit (refreshed a ts) = dailySpendingLimit a
  /\ perTransactionLimit (refreshed a ts) = perTransactionLimit a
  /\ authorizedBots (refreshed a ts) = authorizedBots a.
Proof.
  unfold refreshed. destruct (dayIndex ts >? lastResetDay a); repeat split.
Qed.

Lemma balance_refreshed a ts : balance (refreshed a ts) = balance a.
Proof. apply refreshed_frame. Qed.

Lemma dailySpendingLimit_refreshed a ts :
  dailySpendingLimit (refreshed a ts) = dailySpendingLimit a.
Proof. apply refreshed_frame. Qed.

Lemma perTransactionLimit_refreshed a ts :
  perTransactionLimit (refreshed a ts) = perTransactionLimit a.
Proof. apply refreshed_frame. Qed.

Lemma botFlag_refreshed a ts b : botFlag (refreshed a ts) b = botFlag a b.
Proof. unfold botFlag. f_equal. f_equal. apply refreshed_frame. Qed.

Lemma indicesOf_refresh v f ts g : indicesOf (refresh v f ts) g = indicesOf v g.
Proof.
  unfold refresh.
  destruct (dayIndex ts >? lastResetDay (accountOf v f)); reflexivity.
Qed.

Lemma wp_resetDailyLimitIfNeeded f ts Qok Qerr (w : World T) :
  wp (_resetDailyLimitIfNeeded f ts) Qok Qerr w
  = Qok tt (mkWorld (refresh (vault w) f ts) (token w)).
Proof.
  destruct w as [v t].
  unfold _resetDailyLimitIfNeeded, refresh, refreshed, dayIndex.
  rewrite wp_bind, wp_checked_div. change (ONE_DAY =? 0) with false.
  cbv iota. rewrite wp_bind, wp_aload, wp_when.
  simpl vault. simpl token.
  destruct (ts / ONE_DAY >? lastResetDay (accountOf v f)); [|reflexivity].
  rewrite wp_bind, wp_astore, wp_astore. simpl vault.
  rewrite accountOf_setAccount_eq, setAccount_setAccount. reflexivity.
Qed.

Lemma pays_Some self to amt (t t' : T) :
  pays self to amt t = Some t' -> transfer self to amt t = Ok (true, t').
Proof.
  unfold pays. destruct (transfer self to amt t) as [[[|] t1]|e];
    congruence.
Qed.

Lemma pays_None self to amt (t : T) :
  pays self to amt t = None ->
  (exists e, transfer self to amt t = Err e)
  \/ (exists t', transfer self to amt t = Ok (false, t')).
Proof.
  unfold pays. destruct (transfer self to amt t) as [[[|] t1]|e];
    [discriminate | right; eauto | left; eauto].
Qed.

End PurchaseEngine.

#[global] Hint Rewrite accountOf_refresh_eq setAccount_refresh this_refresh
  platformFeeBps_refresh treasury_refresh purchases_refresh
  balance_refreshed dailySpendingLimit_refreshed perTransactionLimit_refreshed
  botFlag_refreshed indicesOf_refresh : vault.
#[global] Hint Rewrite accountOf_refresh_ne using congruence : vault.

(** ** Stepping through a body *)

Ltac wp_prim :=
  first [ rewrite wp_bind | rewrite wp_ret | rewrite wp_fail
        | rewrite wp_require | rewrite wp_when
        | rewrite wp_resetDailyLimitIfNeeded
        | rewrite wp_aload | rewrite wp_astore
        | rewrite wp_sload | rewrite wp_sstore
        | rewrite wp_checked_add | rewrite wp_checked_sub
        | rewrite wp_checked_mul | rewrite wp_checked_div
        | rewrite wp_usdc_transfer | rewrite wp_usdc_transferFrom ].

Ltac wp_norm :=
  repeat first
    [ wp_prim
    | progress cbv beta
    | progress cbn [vault token balance dailySpendingLimit perTransactionLimit
                    todaySpent lastResetDay authorizedBots set_balance
                    set_limits set_todaySpent set_lastResetDay]
    | progress autorewrite with vault ].

Ltac cond_solve := first [ reflexivity | assumption | lia ].

(** Settle the test at the head of the goal from the context, or split. *)
Ltac wp_decide :=
  lazymatch goal with
  | |- if ?c then _ else _ =>
      first [ replace c with true by (symmetry; cond_solve)
            | replace c with false by (symmetry; cond_solve)
            | destruct c eqn:? ]
  end.

(** Use the recorded answer of the token, or split on it. *)
Ltac wp_token :=
  lazymatch goal with
  | |- context [transfer ?a ?b ?c ?d] =>
      first [ match goal with
              | H : transfer a b c d = _ |- _ => rewrite H
              end
            | destruct (transfer a b c d) as [[[|] ?]|?] eqn:? ]
  | |- context [transferFrom ?a ?b ?c ?d ?e] =>
      first [ match goal with
              | H : transferFrom a b c d e = _ |- _ => rewrite H
              end
            | destruct (transferFrom a b c d e) as [[[|] ?]|?] eqn:? ]
  end.

Ltac wp_forward := wp_norm; repeat (first [wp_decide | wp_token]; wp_norm).

(** Split on every test; the failing branches of a property of the
    successful outcome are trivial. *)
Ltac wp_cases :=
  wp_norm;
  repeat (first [ lazymatch goal with
                  | |- if ?c then _ else _ => destruct c eqn:?
                  end
                | wp_token ];
          try exact I; wp_norm).

Section PurchaseFacts.

Context {T : Type} `{Token : IERC20 T}.

Local Open Scope vault_scope.

(** The successful path of [purchaseOnBehalf]. *)
Lemma purchase_ok (w : World T) sender f r amt md ts t1 t2 :
  r <> 0 ->
  admissible (vault w) sender f amt ts ->
  pays (this (vault w)) r amt (token w) = Some t1 ->
  pays (this (vault w)) (treasury (vault w)) (feeOf (vault w) amt) t1
  = Some t2 ->
  call (purchaseOnBehalf sender f r amt md ts) w
  = (Ok (Z.of_nat (length (purchases (vault w)))),
     mkWorld (purchased (vault w) sender f r amt md ts) t2).
Proof.
  intros Hr (Hamt & Hbot & HperTx & Hdaily & Hspent & Hmul & Htot & Hbal)
         Hp1 Hp2.
  apply pays_Some in Hp1, Hp2.
  apply call_ok. unfold purchaseOnBehalf, computeFee. unfold feeOf in *.
  autorewrite with vault in *.
  wp_forward.
  all: split; [reflexivity|].
  all: unfold purchased, debited, feeOf; cbv zeta; autorewrite with vault.
  all: reflexivity.
Qed.

(** Conversely, a purchase that succeeded went down that path. *)
Lemma purchase_ok_inv (w w' : World T) sender f r amt md ts id :
  call (purchaseOnBehalf sender f r amt md ts) w = (Ok id, w') ->
  r <> 0
  /\ admissible (vault w) sender f amt ts
  /\ id = Z.of_nat (length (purchases (vault w)))
  /\ exists t1 t2,
      pays (this (vault w)) r amt (token w) = Some t1
      /\ pays (this (vault w)) (treasury (vault w)) (feeOf (vault w) amt) t1
         = Some t2
      /\ w' = mkWorld (purchased (vault w) sender f r amt md ts) t2.
Proof.
  intros H. pattern id, w'. eapply call_ok_inv; [clear H | exact H].
  unfold purchaseOnBehalf, computeFee, admissible, pays, purchased, debited,
    feeOf.
  cbv zeta. autorewrite with vault. wp_cases.
  all: repeat match goal with
              | H : transfer _ _ _ _ = _ |- _ => rewrite H
              end.
  all: repeat split; try lia; try (by destruct (botFlag _ _)).
  all: eexists _, _; repeat split.
  all: match goal with H : transfer _ _ _ _ = _ |- _ => by rewrite H end.
Qed.

(** The raw outcome of a body decides the outcome of the transaction. *)
Lemma body_err {A} (m : M T A) (w : World T) e wd :
  wp m (fun _ _ => False) (fun x y => x = e /\ y = wd) w ->
  m w = (Err e, wd).
Proof.
  unfold wp. destruct (m w) as [[x|x] y]; [tauto|].
  intros [-> ->]. reflexivity.
Qed.

Lemma call_of_err {A} (m : M T A) (w : World T) e wd :
  m w = (Err e, wd) -> call m w = (Err e, w).
Proof. unfold call. intros ->. reflexivity. Qed.

(** The two limit failures. *)
Lemma purchase_exceeds_perTx (w : World T) sender f r amt md ts :
  r <> 0 -> 0 < amt ->
  botFlag (accountOf (vault w) f) sender = true ->
  0 < perTransactionLimit (accountOf (vault w) f) ->
  perTransactionLimit (accountOf (vault w) f) < amt ->
  call (purchaseOnBehalf sender f r amt md ts) w
  = (Err (Revert "Exceeds per-transaction limit"), w).
Proof.
  intros Hr Hamt Hbot Hlim Hover.
  apply call_err. unfold purchaseOnBehalf. wp_forward. reflexivity.
Qed.

Lemma purchase_exceeds_daily (w : World T) sender f r amt md ts :
  let a := accountOf (vault w) f in
  r <> 0 -> 0 < amt ->
  botFlag a sender = true ->
  (0 < perTransactionLimit a -> amt <= perTransactionLimit a) ->
  0 < dailySpendingLimit a ->
  todaySpent (refreshed a ts) + amt <= MAX_UINT256 ->
  dailySpendingLimit a < todaySpent (refreshed a ts) + amt ->
  call (purchaseOnBehalf sender f r amt md ts) w
  = (Err (Revert "Exceeds daily limit"), w).
Proof.
  intros a Hr Hamt Hbot HperTx Hlim Hfit Hover. subst a.
  apply call_err. unfold purchaseOnBehalf. wp_forward; reflexivity.
Qed.

(** A refused transfer: the error, and the state the body had reached. *)
Lemma purchase_refused_principal (w : World T) sender f r amt md ts :
  r <> 0 ->
  admissible (vault w) sender f amt ts ->
  pays (this (vault w)) r amt (token w) = None ->
  exists t',
    purchaseOnBehalf sender f r amt md ts w
    = (Err (refusal "Transfer to recipient failed"
                    (transfer (this (vault w)) r amt (token w))),
       mkWorld (setAccount f (debited (vault w) f amt ts) (vault w)) t').
Proof.
  intros Hr (Hamt & Hbot & HperTx & Hdaily & Hspent & Hmul & Htot & Hbal) Hp.
  apply pays_None in Hp. unfold debited, feeOf in *. cbv zeta.
  autorewrite with vault in *.
  destruct Hp as [[e He]|[t' He]]; rewrite He; simpl refusal;
    eexists; apply body_err; unfold purchaseOnBehalf, computeFee;
    wp_forward; split; reflexivity.
Qed.

Lemma purchase_refused_fee (w : World T) sender f r amt md ts t1 :
  r <> 0 ->
  admissible (vault w) sender f amt ts ->
  pays (this (vault w)) r amt (token w) = Some t1 ->
  pays (this (vault w)) (treasury (vault w)) (feeOf (vault w) amt) t1 = None ->
  exists t',
    purchaseOnBehalf sender f r amt md ts w
    = (Err (refusal "Fee transfer failed"
                    (transfer (this (vault w)) (treasury (vault w))
                              (feeOf (vault w) amt) t1)),
       mkWorld (setAccount f (debited (vault w) f amt ts) (vault w)) t').
Proof.
  intros Hr (Hamt & Hbot & HperTx & Hdaily & Hspent & Hmul & Htot & Hbal)
         Hp1 Hp2.
  apply pays_Some in Hp1. apply pays_None in Hp2.
  unfold debited, feeOf in *. cbv zeta. autorewrite with vault in *.
  destruct Hp2 as [[e He]|[t' He]]; rewrite He; simpl refusal;
    eexists; apply body_err; unfold purchaseOnBehalf, computeFee;
    wp_forward; split; reflexivity.
Qed.

End PurchaseFacts.

(** * Transactions, one at a time *)

Section ExecFacts.

Context {T : Type} `{Token : IERC20 T}.

Local Open Scope vault_scope.

Lemma settle_cons self to amt rest (t t' : T) :
  settle self ((to, amt) :: rest) t = Some t' ->
  exists t1, pays self to amt t = Some t1 /\ settle self rest t1 = Some t'.
Proof. simpl. destruct (pays self to amt t) as [t1|]; [eauto|discriminate]. Qed.

Lemma exec_purchase s ts f r a md (w : World T) :
  exec (mkTx s ts (PurchaseOnBehalf f r a md)) w
  = match call (purchaseOnBehalf s f r a md ts) w with
    | (Ok id, w') => (Ok (Some id), w')
    | (Err e, w') => (Err e, w')
    end.
Proof.
  unfold exec, dispatch, call, bind. cbn [tx_op tx_sender tx_time].
  destruct (purchaseOnBehalf s f r a md ts w) as [[id|e] w']; reflexivity.
Qed.

(** Every transaction either commits or leaves the world alone. *)
Lemma exec_cases tx (w : World T) :
  (exists e, exec tx w = (Err e, w))
  \/ (exists res w', exec tx w = (Ok res, w')).
Proof.
  unfold exec, call. destruct (dispatch tx w) as [[res|e] w']; eauto.
Qed.

Lemma exec_deposit_ok (w : World T) s ts amt t' :
  let a := accountOf (vault w) s in
  0 < amt ->
  transferFrom (this (vault w)) s (this (vault w)) amt (token w)
  = Ok (true, t') ->
  balance a + amt <= MAX_UINT256 ->
  exec (mkTx s ts (Deposit amt)) w
  = (Ok None,
     mkWorld (setAccount s (set_balance (balance a + amt) a) (vault w)) t').
Proof.
  intros a Hamt Ht Hfit. subst a. apply call_ok.
  unfold dispatch, unit_result, deposit. cbn [tx_op tx_sender tx_time].
  wp_forward. split; reflexivity.
Qed.

Lemma exec_authorizeBot_ok (w : World T) s ts b :
  let a := accountOf (vault w) s in
  b <> 0 ->
  botFlag a b = false ->
  exec (mkTx s ts (AuthorizeBot b)) w
  = (Ok None, mkWorld (setAccount s (set_bot b true a) (vault w)) (token w)).
Proof.
  intros a Hb Hflag. subst a. apply call_ok.
  unfold dispatch, unit_result, authorizeBot. cbn [tx_op tx_sender tx_time].
  wp_forward. split; reflexivity.
Qed.

Lemma exec_setLimits_ok (w : World T) s ts d p :
  let a := accountOf (vault w) s in
  p <= d \/ d = 0 ->
  exec (mkTx s ts (SetLimits d p)) w
  = (Ok None, mkWorld (setAccount s (set_limits d p a) (vault w)) (token w)).
Proof.
  intros a Hord. subst a. apply call_ok.
  unfold dispatch, unit_result, setLimits. cbn [tx_op tx_sender tx_time].
  wp_forward. split; reflexivity.
Qed.

Lemma exec_purchase_ok (v : Vault) (tok : T) s ts f r amt md t1 t2 :
  r <> 0 ->
  admissible v s f amt ts ->
  pays (this v) r amt tok = Some t1 ->
  pays (this v) (treasury v) (feeOf v amt) t1 = Some t2 ->
  exec (mkTx s ts (PurchaseOnBehalf f r amt md)) (mkWorld v tok)
  = (Ok (Some (Z.of_nat (length (purchases v)))),
     mkWorld (purchased v s f r amt md ts) t2).
Proof.
  intros Hr Hadm Hp1 Hp2. rewrite exec_purchase.
  rewrite (purchase_ok (mkWorld v tok) s f r amt md ts t1 t2); auto.
Qed.

(** The account and the vault after a committed purchase. *)
Lemma todaySpent_refreshed a ts :
  todaySpent (refreshed a ts)
  = if dayIndex ts >? lastResetDay a then 0 else todaySpent a.
Proof. unfold refreshed. destruct (dayIndex ts >? lastResetDay a); reflexivity. Qed.

Lemma lastResetDay_refreshed a ts :
  lastResetDay (refreshed a ts) = Z.max (lastResetDay a) (dayIndex ts).
Proof.
  unfold refreshed. destruct (dayIndex ts >? lastResetDay a) eqn:E;
    cbn [lastResetDay set_lastResetDay set_todaySpent]; lia.
Qed.

Lemma purchased_facts v s f r amt md ts :
  let a := accountOf v f in
  let a' := accountOf (purchased v s f r amt md ts) f in
  let v' := purchased v s f r amt md ts in
  (balance a' = balance a - (amt + feeOf v amt)
   /\ todaySpent a' = todaySpent (refreshed a ts) + amt
   /\ lastResetDay a' = Z.max (lastResetDay a) (dayIndex ts)
   /\ dailySpendingLimit a' = dailySpendingLimit a
   /\ perTransactionLimit a' = perTransactionLimit a
   /\ (forall b, botFlag a' b = botFlag a b))
  /\ (this v' = this v
      /\ platformFeeBps v' = platformFeeBps v
      /\ treasury v' = treasury v
      /\ purchases v'
         = purchases v ++ [mkPurchase f s r amt (feeOf v amt) ts md]
      /\ indicesOf v' f
         = indicesOf v f ++ [Z.of_nat (length (purchases v))]).
Proof.
  cbv zeta. unfold purchased, debited. cbv zeta. autorewrite with vault.
  cbn [balance todaySpent lastResetDay dailySpendingLimit perTransactionLimit
       set_todaySpent set_balance].
  autorewrite with vault. rewrite lastResetDay_refreshed.
  repeat split. intros b. autorewrite with vault. reflexivity.
Qed.

End ExecFacts.

(** * Properties of the purchase engine *)

Section EngineProperties.

Context {T : Type} `{Token : IERC20 T}.

(** C6 (limit boundary).  With a per-transaction limit [L <> 0], an
    authorised bot and a non-null recipient: a purchase of exactly [L] never
    fails on the vault's per-transaction check (if the caller sees "Exceeds
    per-transaction limit" at all, the token raised it), and it succeeds when
    the daily limit permits it, the balance covers principal and fee and the
    token pays; a purchase of [L + 1] fails with "Exceeds per-transaction
    limit" whatever the daily limit and the balance are, since that check
    comes first. *)
Theorem per_transaction_limit_boundary (w : World T) sender f r md ts :
  let a := accountOf (vault w) f in
  let L := perTransactionLimit a in
  0 < L ->
  r <> 0 ->
  botFlag a sender = true ->
  (forall e,
      fst (call (purchaseOnBehalf sender f r L md ts) w) = Err e ->
      e = Revert "Exceeds per-transaction limit" ->
      exists to amt t, transfer (this (vault w)) to amt t = Err e)
  /\ (forall t1 t2,
        (0 < dailySpendingLimit a ->
         todaySpent (refreshed a ts) + L <= dailySpendingLimit a) ->
        todaySpent (refreshed a ts) + L <= MAX_UINT256 ->
        L * platformFeeBps (vault w) <= MAX_UINT256 ->
        L + feeOf (vault w) L <= balance a ->
        balance a <= MAX_UINT256 ->
        pays (this (vault w)) r L (token w) = Some t1 ->
        pays (this (vault w)) (treasury (vault w)) (feeOf (vault w) L) t1
        = Some t2 ->
        call (purchaseOnBehalf sender f r L md ts) w
        = (Ok (Z.of_nat (length (purchases (vault w)))),
           mkWorld (purchased (vault w) sender f r L md ts) t2))
  /\ call (purchaseOnBehalf sender f r (L + 1) md ts) w
     = (Err (Revert "Exceeds per-transaction limit"), w).
Proof.
  intros a L HL Hr Hbot. split; [|split].
  - intros e Hfst.
    destruct (call (purchaseOnBehalf sender f r L md ts) w) as [res w']
      eqn:Hcall.
    cbn [fst] in Hfst. subst res.
    pattern e. eapply call_err_inv; [clear Hcall | exact Hcall].
    unfold purchaseOnBehalf, computeFee. subst L a.
    wp_cases; intros Heq; try discriminate; try lia; eauto.
  - intros t1 t2 Hdaily Hfit Hmul Hbal Hwf Hp1 Hp2.
    apply purchase_ok with (t1 := t1); try assumption.
    unfold admissible. cbv zeta. autorewrite with vault.
    fold a. fold L. repeat split; try assumption; lia.
  - apply purchase_exceeds_perTx; fold a; fold L; try assumption; lia.
Qed.

(** C3 (rollback on transfer failure).  When a purchase has passed every
    check and the token then refuses the transfer of the principal, or pays
    the principal and refuses the fee, the caller gets the error of the
    refused transfer and the world is the one before the call: balance,
    [todaySpent], ledger and per-fund index are untouched, although the body
    had already debited the account when the transfer was attempted. *)
Theorem transfer_failure_rolls_back (w : World T) sender f r amt md ts :
  let self := this (vault w) in
  let dest := treasury (vault w) in
  let charge := feeOf (vault w) amt in
  let outcome := call (purchaseOnBehalf sender f r amt md ts) w in
  r <> 0 ->
  admissible (vault w) sender f amt ts ->
  pays self r amt (token w) = None
  \/ (exists t1, pays self r amt (token w) = Some t1
                 /\ pays self dest charge t1 = None) ->
  (exists e,
      outcome = (Err e, w)
      /\ (e = refusal "Transfer to recipient failed"
                      (transfer self r amt (token w))
          \/ exists t1, pays self r amt (token w) = Some t1
                        /\ e = refusal "Fee transfer failed"
                                       (transfer self dest charge t1)))
  /\ balance (accountOf (vault (snd outcome)) f)
     = balance (accountOf (vault w) f)
  /\ todaySpent (accountOf (vault (snd outcome)) f)
     = todaySpent (accountOf (vault w) f)
  /\ purchases (vault (snd outcome)) = purchases (vault w)
  /\ indicesOf (vault (snd outcome)) f = indicesOf (vault w) f
  /\ balance (accountOf
                (vault (snd (purchaseOnBehalf sender f r amt md ts w))) f)
     = balance (accountOf (vault w) f) - (amt + charge).
Proof.
  intros self dest charge outcome Hr Hadm Hfail.
  assert (Hbody : exists e t',
             purchaseOnBehalf sender f r amt md ts w
             = (Err e, mkWorld (setAccount f (debited (vault w) f amt ts)
                                           (vault w)) t')
             /\ (e = refusal "Transfer to recipient failed"
                             (transfer self r amt (token w))
                 \/ exists t1, pays self r amt (token w) = Some t1
                               /\ e = refusal "Fee transfer failed"
                                              (transfer self dest charge t1))).
  { destruct Hfail as [Hp|[t1 [Hp1 Hp2]]].
    - destruct (purchase_refused_principal w sender f r amt md ts Hr Hadm Hp)
        as [t' Heq].
      eexists _, t'. split; [exact Heq | left; reflexivity].
    - destruct (purchase_refused_fee w sender f r amt md ts t1 Hr Hadm Hp1 Hp2)
        as [t' Heq].
      eexists _, t'. split; [exact Heq | right; exists t1; split; auto]. }
  destruct Hbody as (e & t' & Hbody & He).
  assert (Hcall : outcome = (Err e, w))
    by (eapply call_of_err; exact Hbody).
  split; [exists e; split; assumption|].
  rewrite Hcall, Hbody. cbn [snd vault].
  repeat split. autorewrite with vault. unfold debited. cbv zeta.
  cbn [balance set_todaySpent set_balance]. autorewrite with vault.
  reflexivity.
Qed.

(** C9 (the recipient is not constrained).  Apart from being non-null the
    recipient plays no part in the checks: for every recipient the token
    pays, the purchase succeeds exactly when the checks on bot, limits and
    balance pass, and these do not mention the recipient.  In particular an
    authorised bot can name itself, or the fund, as recipient and is paid the
    principal from the fund's balance. *)
Theorem recipient_is_unconstrained (w : World T) sender f amt md ts :
  let self := this (vault w) in
  let dest := treasury (vault w) in
  let charge := feeOf (vault w) amt in
  (forall r t1 t2,
      r <> 0 ->
      pays self r amt (token w) = Some t1 ->
      pays self dest charge t1 = Some t2 ->
      (admissible (vault w) sender f amt ts
       <-> exists id w',
            call (purchaseOnBehalf sender f r amt md ts) w = (Ok id, w')))
  /\ (forall r t1 t2,
        r = sender \/ r = f ->
        r <> 0 ->
        admissible (vault w) sender f amt ts ->
        pays self r amt (token w) = Some t1 ->
        pays self dest charge t1 = Some t2 ->
        exists w',
          call (purchaseOnBehalf sender f r amt md ts) w
          = (Ok (Z.of_nat (length (purchases (vault w)))), w')
          /\ token w' = t2
          /\ last (purchases (vault w'))
             = Some (mkPurchase f sender r amt charge ts md)
          /\ balance (accountOf (vault w') f)
             = balance (accountOf (vault w) f) - (amt + charge)).
Proof.
  intros self dest charge. split.
  - intros r t1 t2 Hr Hp1 Hp2. split.
    + intros Hadm. eexists _, _.
      apply purchase_ok with (t1 := t1); eassumption.
    + intros (id & w' & Hcall).
      apply purchase_ok_inv in Hcall. tauto.
  - intros r t1 t2 _ Hr Hadm Hp1 Hp2. eexists. split.
    + apply purchase_ok with (t1 := t1); eassumption.
    + cbn [token vault]. unfold purchased. autorewrite with vault.
      repeat split.
      * apply last_snoc.
      * unfold debited. cbv zeta.
        cbn [balance set_todaySpent set_balance]. autorewrite with vault.
        reflexivity.
Qed.

(** C2 (fee exactness).  Whatever the amount and the fee rate, a purchase
    that goes through charges the fee [floor (amount * bps / 10000)]: this is
    what [computeFee] returns, what the ledger records, what the fund's
    balance loses beyond the principal and what the treasury is sent.  No
    rounding adjustment is made.  At 200 bps, 100_000000 is charged 2_000000
    and 33_330000 is charged 666_600. *)
Theorem fee_is_floor_of_rate (w w' : World T) sender f r amt md ts id :
  call (purchaseOnBehalf sender f r amt md ts) w = (Ok id, w') ->
  let bps := platformFeeBps (vault w) in
  let charged := amt * bps / BPS_DIVISOR in
  call (computeFee amt) w = (Ok charged, w)
  /\ purchases (vault w') !! Z.to_nat id
     = Some (mkPurchase f sender r amt charged ts md)
  /\ balance (accountOf (vault w') f)
     = balance (accountOf (vault w) f) - (amt + charged)
  /\ (exists t1,
        pays (this (vault w)) r amt (token w) = Some t1
        /\ pays (this (vault w)) (treasury (vault w)) charged t1
           = Some (token w'))
  /\ BPS_DIVISOR * charged <= amt * bps < BPS_DIVISOR * (charged + 1)
  /\ (forall w0 : World T,
        platformFeeBps (vault w0) = 200 ->
        call (computeFee 100000000) w0 = (Ok 2000000, w0)
        /\ call (computeFee 33330000) w0 = (Ok 666600, w0)).
Proof.
  intros Hcall bps charged.
  apply purchase_ok_inv in Hcall.
  destruct Hcall as (Hr & Hadm & -> & t1 & t2 & Hp1 & Hp2 & ->).
  destruct (purchased_facts (vault w) sender f r amt md ts)
    as [(Hbal & _) (_ & _ & _ & Hledger & _)].
  cbn [vault token]. fold (feeOf (vault w) amt) in charged.
  repeat match goal with |- _ /\ _ => split end.
  - destruct Hadm as (_ & _ & _ & _ & _ & Hmul & _).
    apply call_ok. unfold computeFee. wp_forward. split; reflexivity.
  - rewrite Hledger, Nat2Z.id. by apply list_lookup_middle.
  - exact Hbal.
  - exists t1. split; assumption.
  - subst charged. unfold feeOf, BPS_DIVISOR. fold bps.
    apply Z.mul_div_le. lia.
  - subst charged. unfold feeOf, BPS_DIVISOR. fold bps.
    rewrite Z.add_1_r. apply Z.mul_succ_div_gt. lia.
  - intros w0 H200.
    split; apply call_ok; unfold computeFee; wp_norm; rewrite H200;
      vm_compute; split; reflexivity.
Qed.

(** C5 (daily reset).  With a per-transaction limit [L <> 0], a daily limit
    of [2 * L], a product [L * platformFeeBps] that fits in 256 bits, an
    authorised bot, nothing spent yet on the day of the first call, a
    balance that covers three purchases with their fees and a token that
    pays: two purchases of [L] on the same day succeed and bring
    [todaySpent] to [2 * L]; a third on that day fails with "Exceeds daily
    limit" and changes nothing; one full day later the same purchase
    succeeds, and afterwards [todaySpent] is exactly [L] and [lastResetDay]
    is the new day index. *)
Theorem daily_limit_resets_on_a_new_day
    (w : World T) sender f r L md t1 t2 t3 t4 tok :
  let a := accountOf (vault w) f in
  let self := this (vault w) in
  let dest := treasury (vault w) in
  let charge := feeOf (vault w) L in
  let n := Z.of_nat (length (purchases (vault w))) in
  let buy ts := call (purchaseOnBehalf sender f r L md ts) in
  let w1 := snd (buy t1 w) in
  let w2 := snd (buy t2 w1) in
  let w3 := snd (buy t3 w2) in
  let w4 := snd (buy t4 w3) in
  0 < L ->
  perTransactionLimit a = L ->
  dailySpendingLimit a = 2 * L ->
  botFlag a sender = true ->
  r <> 0 ->
  dayIndex t2 = dayIndex t1 ->
  dayIndex t3 = dayIndex t1 ->
  lastResetDay a <= dayIndex t1 ->
  lastResetDay a < dayIndex t1 \/ todaySpent a = 0 ->
  t3 + ONE_DAY <= t4 ->
  3 * (L + charge) <= balance a ->
  balance a <= MAX_UINT256 ->
  0 <= platformFeeBps (vault w) ->
  L * platformFeeBps (vault w) <= MAX_UINT256 ->
  settle self [(r, L); (dest, charge); (r, L); (dest, charge);
               (r, L); (dest, charge)] (token w) = Some tok ->
  fst (buy t1 w) = Ok n
  /\ fst (buy t2 w1) = Ok (n + 1)
  /\ todaySpent (accountOf (vault w2) f) = 2 * L
  /\ buy t3 w2 = (Err (Revert "Exceeds daily limit"), w2)
  /\ fst (buy t4 w3) = Ok (n + 2)
  /\ todaySpent (accountOf (vault w4) f) = L
  /\ lastResetDay (accountOf (vault w4) f) = dayIndex t4
  /\ token w4 = tok.
Proof.
  intros a self dest charge n buy w1 w2 w3 w4
         HL HperTx Hdaily Hbot Hr Hd2 Hd3 Hlast Hfresh Hnext Hbal Hwf Hbps
         Hmul Hsettle.
  apply settle_cons in Hsettle as (ta & Hpa & Hsettle).
  apply settle_cons in Hsettle as (tb & Hpb & Hsettle).
  apply settle_cons in Hsettle as (tc & Hpc & Hsettle).
  apply settle_cons in Hsettle as (td & Hpd & Hsettle).
  apply settle_cons in Hsettle as (te & Hpe & Hsettle).
  apply settle_cons in Hsettle as (tf & Hpf & Hsettle).
  injection Hsettle as <-.
  assert (Hcharge : 0 <= charge).
  { unfold charge, feeOf, BPS_DIVISOR. apply Z.div_pos; nia. }
  assert (Hday4 : dayIndex t1 < dayIndex t4).
  { rewrite <- Hd3. unfold dayIndex, ONE_DAY in *. Z.div_mod_to_equations. lia. }
  (* first purchase *)
  assert (Hspent0 : todaySpent (refreshed a t1) = 0).
  { rewrite todaySpent_refreshed.
    destruct (dayIndex t1 >? lastResetDay a) eqn:E; lia. }
  assert (E1 : buy t1 w
               = (Ok n, mkWorld (purchased (vault w) sender f r L md t1) tb)).
  { apply purchase_ok with (t1 := ta); try assumption.
    unfold admissible. cbv zeta. autorewrite with vault. fold a.
    fold charge. rewrite Hspent0. repeat split; try assumption; lia. }
  destruct (purchased_facts (vault w) sender f r L md t1)
    as [(Hb1 & Hs1 & Hl1 & Hdl1 & Hpt1 & Hbf1) (Hth1 & Hfee1 & Htr1 & Hled1 & _)].
  fold a in Hb1, Hs1, Hl1, Hdl1, Hpt1, Hbf1. fold charge in Hb1.
  set (v1 := purchased (vault w) sender f r L md t1) in *.
  assert (Ew1 : w1 = mkWorld v1 tb) by (unfold w1; rewrite E1; reflexivity).
  clearbody w1. subst w1.
  (* second purchase, same day *)
  assert (Hfee1' : feeOf v1 L = charge)
    by (unfold charge, feeOf; rewrite Hfee1; reflexivity).
  assert (Hspent1 : todaySpent (refreshed (accountOf v1 f) t2) = L).
  { rewrite todaySpent_refreshed, Hl1, Hs1, Hspent0.
    destruct (dayIndex t2 >? _) eqn:E; lia. }
  assert (E2 : buy t2 (mkWorld v1 tb)
               = (Ok (n + 1), mkWorld (purchased v1 sender f r L md t2) td)).
  { replace (n + 1) with (Z.of_nat (length (purchases v1)))
      by (rewrite Hled1, length_app; simpl; lia).
    apply purchase_ok with (t1 := tc); cbn [vault token];
      rewrite ?Hth1, ?Htr1, ?Hfee1'; try assumption.
    unfold admissible. cbv zeta. autorewrite with vault.
    rewrite Hfee1', Hspent1, Hbf1, Hpt1, Hdl1, Hb1, Hfee1.
    repeat split; try assumption; lia. }
  destruct (purchased_facts v1 sender f r L md t2)
    as [(Hb2 & Hs2 & Hl2 & Hdl2 & Hpt2 & Hbf2) (Hth2 & Hfee2 & Htr2 & Hled2 & _)].
  rewrite Hfee1' in Hb2.
  set (v2 := purchased v1 sender f r L md t2) in *.
  assert (Ew2 : w2 = mkWorld v2 td) by (unfold w2; rewrite E2; reflexivity).
  clearbody w2. subst w2.
  (* third purchase, same day: refused *)
  assert (Hspent2 : todaySpent (refreshed (accountOf v2 f) t3) = 2 * L).
  { rewrite todaySpent_refreshed, Hl2, Hs2, Hspent1, Hl1.
    destruct (dayIndex t3 >? _) eqn:E; lia. }
  assert (E3 : buy t3 (mkWorld v2 td)
               = (Err (Revert "Exceeds daily limit"), mkWorld v2 td)).
  { apply purchase_exceeds_daily; cbn [vault]; try assumption;
      rewrite ?Hbf2, ?Hbf1, ?Hpt2, ?Hpt1, ?Hdl2, ?Hdl1, ?Hspent2;
      try assumption; lia. }
  assert (Ew3 : w3 = mkWorld v2 td) by (unfold w3; rewrite E3; reflexivity).
  clearbody w3. subst w3.
  (* fourth purchase, a day later *)
  assert (Hfee2' : feeOf v2 L = charge)
    by (unfold feeOf; rewrite Hfee2; exact Hfee1').
  assert (Hspent3 : todaySpent (refreshed (accountOf v2 f) t4) = 0).
  { rewrite todaySpent_refreshed, Hl2, Hl1.
    destruct (dayIndex t4 >? _) eqn:E; lia. }
  assert (E4 : buy t4 (mkWorld v2 td)
               = (Ok (n + 2), mkWorld (purchased v2 sender f r L md t4) tf)).
  { replace (n + 2) with (Z.of_nat (length (purchases v2)))
      by (rewrite Hled2, Hled1, !length_app; simpl; lia).
    apply purchase_ok with (t1 := te); cbn [vault token];
      rewrite ?Hth2, ?Hth1, ?Htr2, ?Htr1, ?Hfee2'; try assumption.
    unfold admissible. cbv zeta. autorewrite with vault.
    rewrite Hfee2', Hspent3, Hbf2, Hbf1, Hpt2, Hpt1, Hdl2, Hdl1, Hb2, Hb1,
      Hfee2, Hfee1.
    repeat split; try assumption; lia. }
  destruct (purchased_facts v2 sender f r L md t4)
    as [(_ & Hs4 & Hl4 & _) _].
  set (v4 := purchased v2 sender f r L md t4) in *.
  assert (Ew4 : w4 = mkWorld v4 tf) by (unfold w4; rewrite E4; reflexivity).
  clearbody w4. subst w4.
  rewrite E1, E2, E4. cbn [fst vault token].
  repeat split; try reflexivity.
  - lia.
  - exact E3.
  - lia.
  - rewrite Hl4, Hl2, Hl1. lia.
Qed.

(** C1 (end-to-end scenario).  A fresh fund under the deployment fee of 200
    bps deposits 1000.00, authorises bot [B] and sets a daily limit of 500.00
    and a per-transaction limit of 150.00.  The first purchase of 150.00 by
    [B] succeeds with fee 3.00 and leaves balance 847.00 and [todaySpent]
    150.00; the second, the same day, succeeds and leaves 694.00 and 300.00;
    the third, the same day, succeeds as well, since [300 + 150 <= 500], and
    leaves 541.00 and 450.00; a fourth the same day fails with "Exceeds daily
    limit" and changes nothing. *)
Theorem end_to_end_scenario
    (w : World T) F B R md t0 t0' t0'' ts1 ts2 ts3 ts4 tokA tokB :
  let self := this (vault w) in
  let dest := treasury (vault w) in
  let setup := [mkTx F t0 (Deposit (dollars 1000));
                mkTx F t0' (AuthorizeBot B);
                mkTx F t0'' (SetLimits (dollars 500) (dollars 150))] in
  let buy ts := exec (mkTx B ts (PurchaseOnBehalf F R (dollars 150) md)) in
  let n := Z.of_nat (length (purchases (vault w))) in
  let w0 := run setup w in
  let w1 := snd (buy ts1 w0) in
  let w2 := snd (buy ts2 w1) in
  let w3 := snd (buy ts3 w2) in
  accountOf (vault w) F = zeroAccount ->
  platformFeeBps (vault w) = 200 ->
  B <> 0 ->
  R <> 0 ->
  dayIndex ts2 = dayIndex ts1 ->
  dayIndex ts3 = dayIndex ts1 ->
  dayIndex ts4 = dayIndex ts1 ->
  transferFrom self F self (dollars 1000) (token w) = Ok (true, tokA) ->
  settle self [(R, dollars 150); (dest, dollars 3);
               (R, dollars 150); (dest, dollars 3);
               (R, dollars 150); (dest, dollars 3)] tokA = Some tokB ->
  (fst (buy ts1 w0) = Ok (Some n)
   /\ fee <$> last (purchases (vault w1)) = Some (dollars 3)
   /\ balance (accountOf (vault w1) F) = dollars 847
   /\ todaySpent (accountOf (vault w1) F) = dollars 150)
  /\ (fst (buy ts2 w1) = Ok (Some (n + 1))
      /\ balance (accountOf (vault w2) F) = dollars 694
      /\ todaySpent (accountOf (vault w2) F) = dollars 300)
  /\ (fst (buy ts3 w2) = Ok (Some (n + 2))
      /\ balance (accountOf (vault w3) F) = dollars 541
      /\ todaySpent (accountOf (vault w3) F) = dollars 450)
  /\ buy ts4 w3 = (Err (Revert "Exceeds daily limit"), w3).
Proof.
  intros self dest setup buy n w0 w1 w2 w3
         Hfresh Hbps HB HR Hd2 Hd3 Hd4 Hdep Hsettle.
  apply settle_cons in Hsettle as (ta & Hpa & Hsettle).
  apply settle_cons in Hsettle as (tb & Hpb & Hsettle).
  apply settle_cons in Hsettle as (tc & Hpc & Hsettle).
  apply settle_cons in Hsettle as (td & Hpd & Hsettle).
  apply settle_cons in Hsettle as (te & Hpe & Hsettle).
  apply settle_cons in Hsettle as (tf & Hpf & Hsettle).
  injection Hsettle as <-.
  (* set-up *)
  assert (E0 : exists v0,
             w0 = mkWorld v0 tokA
             /\ accountOf v0 F
                = mkFundAccount (dollars 1000) (dollars 500) (dollars 150)
                                0 0 (<[B := true]> ∅)
             /\ this v0 = self /\ treasury v0 = dest
             /\ platformFeeBps v0 = 200
             /\ purchases v0 = purchases (vault w)).
  { unfold w0, setup. cbn [run].
    rewrite (exec_deposit_ok w F t0 (dollars 1000) tokA);
      [| reflexivity | exact Hdep | rewrite Hfresh; vm_compute; discriminate].
    cbn [snd].
    rewrite exec_authorizeBot_ok;
      [| exact HB
       | cbn [vault]; autorewrite with vault; rewrite Hfresh; reflexivity].
    cbn [snd].
    rewrite exec_setLimits_ok; [| left; vm_compute; discriminate].
    cbn [snd vault token]. eexists. split; [reflexivity|].
    autorewrite with vault. rewrite Hfresh. repeat split; assumption. }
  destruct E0 as (v0 & Ew0 & Ha0 & Hth0 & Htr0 & Hfee0 & Hled0).
  clearbody w0. subst w0.
  assert (Hbot0 : botFlag (accountOf v0 F) B = true)
    by (rewrite Ha0; unfold botFlag; cbn [authorizedBots];
        by rewrite lookup_insert_eq).
  assert (Ha0' : balance (accountOf v0 F) = 1000000000
                 /\ dailySpendingLimit (accountOf v0 F) = 500000000
                 /\ perTransactionLimit (accountOf v0 F) = 150000000
                 /\ todaySpent (accountOf v0 F) = 0
                 /\ lastResetDay (accountOf v0 F) = 0)
    by (rewrite Ha0; repeat split).
  destruct Ha0' as (Hb0 & Hdl0 & Hpt0 & Hs0 & Hl0). clear Ha0.
  change (dollars 150) with 150000000 in *.
  change (dollars 3) with 3000000 in *.
  change (dollars 847) with 847000000. change (dollars 694) with 694000000.
  change (dollars 541) with 541000000. change (dollars 300) with 300000000.
  change (dollars 450) with 450000000.
  assert (Hmax : MAX_UINT256 >= 2 ^ 64) by (vm_compute; discriminate).
  change (2 ^ 64) with 18446744073709551616 in Hmax.
  subst self dest.
  (* first purchase *)
  assert (Hfee0' : feeOf v0 150000000 = 3000000)
    by (unfold feeOf; rewrite Hfee0; reflexivity).
  assert (Hspent0 : todaySpent (refreshed (accountOf v0 F) ts1) = 0).
  { rewrite todaySpent_refreshed, Hs0. by destruct (dayIndex ts1 >? _). }
  assert (E1 : buy ts1 (mkWorld v0 tokA)
               = (Ok (Some n),
                  mkWorld (purchased v0 B F R 150000000 md ts1) tb)).
  { unfold n. rewrite <- Hled0.
    apply exec_purchase_ok with (t1 := ta);
      rewrite ?Hth0, ?Htr0, ?Hfee0'; try assumption.
    unfold admissible. cbv zeta. autorewrite with vault.
    rewrite Hfee0', Hspent0, Hpt0, Hdl0, Hb0, Hfee0.
    repeat split; try assumption; lia. }
  destruct (purchased_facts v0 B F R 150000000 md ts1)
    as [(Hb1 & Hs1 & Hl1 & Hdl1 & Hpt1 & Hbf1)
        (Hth1 & Hfee1 & Htr1 & Hled1 & _)].
  rewrite Hfee0' in Hb1, Hled1.
  set (v1 := purchased v0 B F R 150000000 md ts1) in *.
  assert (Ew1 : w1 = mkWorld v1 tb) by (unfold w1; rewrite E1; reflexivity).
  clearbody w1. subst w1.
  (* second purchase *)
  assert (Hfee1' : feeOf v1 150000000 = 3000000)
    by (unfold feeOf; rewrite Hfee1, Hfee0; reflexivity).
  assert (Hspent1 : todaySpent (refreshed (accountOf v1 F) ts2) = 150000000).
  { rewrite todaySpent_refreshed, Hl1, Hs1, Hspent0, Hl0.
    destruct (dayIndex ts2 >? _) eqn:E; lia. }
  assert (E2 : buy ts2 (mkWorld v1 tb)
               = (Ok (Some (n + 1)),
                  mkWorld (purchased v1 B F R 150000000 md ts2) td)).
  { replace (n + 1) with (Z.of_nat (length (purchases v1)))
      by (rewrite Hled1, Hled0, length_app; simpl; lia).
    apply exec_purchase_ok with (t1 := tc);
      rewrite ?Hth1, ?Hth0, ?Htr1, ?Htr0, ?Hfee1'; try assumption.
    unfold admissible. cbv zeta. autorewrite with vault.
    rewrite Hfee1', Hspent1, Hbf1, Hpt1, Hpt0, Hdl1, Hdl0, Hb1, Hb0, Hfee1,
      Hfee0.
    repeat split; try assumption; lia. }
  destruct (purchased_facts v1 B F R 150000000 md ts2)
    as [(Hb2 & Hs2 & Hl2 & Hdl2 & Hpt2 & Hbf2)
        (Hth2 & Hfee2 & Htr2 & Hled2 & _)].
  rewrite Hfee1' in Hb2.
  set (v2 := purchased v1 B F R 150000000 md ts2) in *.
  assert (Ew2 : w2 = mkWorld v2 td) by (unfold w2; rewrite E2; reflexivity).
  clearbody w2. subst w2.
  (* third purchase *)
  assert (Hfee2' : feeOf v2 150000000 = 3000000)
    by (unfold feeOf; rewrite Hfee2, Hfee1, Hfee0; reflexivity).
  assert (Hspent2 : todaySpent (refreshed (accountOf v2 F) ts3) = 300000000).
  { rewrite todaySpent_refreshed, Hl2, Hs2, Hspent1, Hl1, Hl0.
    destruct (dayIndex ts3 >? _) eqn:E; lia. }
  assert (E3 : buy ts3 (mkWorld v2 td)
               = (Ok (Some (n + 2)),
                  mkWorld (purchased v2 B F R 150000000 md ts3) tf)).
  { replace (n + 2) with (Z.of_nat (length (purchases v2)))
      by (rewrite Hled2, Hled1, Hled0, !length_app; simpl; lia).
    apply exec_purchase_ok with (t1 := te);
      rewrite ?Hth2, ?Hth1, ?Hth0, ?Htr2, ?Htr1, ?Htr0, ?Hfee2';
      try assumption.
    unfold admissible. cbv zeta. autorewrite with vault.
    rewrite Hfee2', Hspent2, Hbf2, Hbf1, Hpt2, Hpt1, Hpt0, Hdl2, Hdl1, Hdl0,
      Hb2, Hb1, Hb0, Hfee2, Hfee1, Hfee0.
    repeat split; try assumption; lia. }
  destruct (purchased_facts v2 B F R 150000000 md ts3)
    as [(Hb3 & Hs3 & Hl3 & Hdl3 & Hpt3 & Hbf3) _].
  rewrite Hfee2' in Hb3.
  set (v3 := purchased v2 B F R 150000000 md ts3) in *.
  assert (Ew3 : w3 = mkWorld v3 tf) by (unfold w3; rewrite E3; reflexivity).
  clearbody w3. subst w3.
  (* fourth purchase: over the daily limit *)
  assert (Hspent3 : todaySpent (refreshed (accountOf v3 F) ts4) = 450000000).
  { rewrite todaySpent_refreshed, Hl3, Hs3, Hspent2, Hl2, Hl1, Hl0.
    destruct (dayIndex ts4 >? _) eqn:E; lia. }
  assert (E4 : buy ts4 (mkWorld v3 tf)
               = (Err (Revert "Exceeds daily limit"), mkWorld v3 tf)).
  { unfold buy. rewrite exec_purchase.
    rewrite purchase_exceeds_daily; [reflexivity| ..]; cbn [vault];
      rewrite ?Hbf3, ?Hbf2, ?Hbf1, ?Hpt3, ?Hpt2, ?Hpt1, ?Hpt0, ?Hdl3, ?Hdl2,
        ?Hdl1, ?Hdl0, ?Hspent3; try assumption; lia. }
  rewrite E1, E2, E3. cbn [fst vault].
  rewrite Hled1, last_snoc. cbn [fmap option_fmap option_map fee].
  repeat split; try reflexivity; try lia. exact E4.
Qed.

End EngineProperties.

(** * Transactions and the tables *)

Section Frames.

Context {T : Type} `{Token : IERC20 T}.

Lemma exec_ok_vault tx (w w' : World T) res :
  exec tx w = (Ok res, w') ->
  vault w' = effect tx (vault w) /\ res = returned tx (vault w).
Proof.
  destruct tx as [s ts op]. unfold effect, returned.
  cbn [tx_op tx_sender tx_time].
  destruct op as [x|x|b|b|d p|f r x md|x|x].
  6: { rewrite exec_purchase.
       destruct (call (purchaseOnBehalf s f r x md ts) w) as [[id|e] w1] eqn:E;
         [|discriminate].
       intros [= <- <-]. apply purchase_ok_inv in E.
       destruct E as (_ & _ & -> & t1 & t2 & _ & _ & ->). split; reflexivity. }
  all: intros E; pattern res, w'; eapply call_ok_inv; [clear E | exact E].
  all: unfold dispatch, unit_result, deposit, withdraw, authorizeBot,
         revokeBot, setLimits, setPlatformFee, setTreasury.
  all: cbn [tx_op tx_sender tx_time].
  all: wp_cases; split; reflexivity.
Qed.

Lemma accountOf_purchased_ne v s f r x md ts g :
  f <> g -> accountOf (purchased v s f r x md ts) g = accountOf v g.
Proof. intros Hne. unfold purchased. by autorewrite with vault. Qed.

Lemma indicesOf_purchased_ne v s f r x md ts g :
  f <> g -> indicesOf (purchased v s f r x md ts) g = indicesOf v g.
Proof. intros Hne. unfold purchased. by autorewrite with vault. Qed.

Lemma exec_balance F tx (w : World T) :
  balance (accountOf (vault (snd (exec tx w))) F)
  = balance (accountOf (vault w) F)
    + deposited F tx w - withdrawn F tx w - spentOn F tx w.
Proof.
  unfold deposited, withdrawn, spentOn, feeCharged, committed.
  destruct (exec_cases tx w) as [[e E]|(res & w' & E)]; rewrite E;
    cbn [fst snd].
  { destruct (tx_op tx); cbn [andb]; lia. }
  apply exec_ok_vault in E as [-> ->]. unfold effect, returned.
  destruct tx as [s ts op]. cbn [tx_op tx_sender tx_time andb].
  destruct op as [x|x|b|b|d p|f r x md|x|x].
  1-5: destruct (Z.eqb_spec s F) as [->|Hne]; autorewrite with vault;
       cbn [balance set_balance set_bot set_limits]; lia.
  2-3: autorewrite with vault; lia.
  destruct (purchased_facts (vault w) s f r x md ts)
    as [(Hb & _) (_ & _ & _ & Hled & _)].
  rewrite Hled, Nat2Z.id, list_lookup_middle by reflexivity.
  cbn [fmap option_fmap option_map default fee]. unfold id.
  destruct (Z.eqb_spec f F) as [->|Hne].
  - rewrite Hb. lia.
  - rewrite accountOf_purchased_ne by assumption. lia.
Qed.

(** C4 (conservation).  Over any block of transactions, the balance of a
    fund at the end is its balance at the start, plus the deposits it made
    that committed, minus its withdrawals that committed, minus principal
    and fee of every purchase on it that committed.  Reverted transactions,
    and transactions of other funds, contribute nothing. *)
Theorem conservation (F : address) (txs : list Tx) (w : World T) :
  balance (accountOf (vault (run txs w)) F)
  = balance (accountOf (vault w) F)
    + total (deposited F) txs w
    - total (withdrawn F) txs w
    - total (spentOn F) txs w.
Proof.
  revert w. induction txs as [|tx rest IH]; intros w; cbn [run total].
  - lia.
  - rewrite IH, exec_balance. lia.
Qed.

(** ** Views *)

Lemma isBotAuthorized_eq F B (w : World T) :
  call (isBotAuthorized F B) w = (Ok (botFlag (accountOf (vault w) F) B), w).
Proof. destruct w; reflexivity. Qed.

Lemma getFundAccount_eq F (w : World T) :
  call (getFundAccount F) w
  = (let a := accountOf (vault w) F in
     Ok (balance a, dailySpendingLimit a, perTransactionLimit a,
         todaySpent a, lastResetDay a), w).
Proof. destruct w; reflexivity. Qed.

Lemma getFundPurchases_eq F (w : World T) :
  call (getFundPurchases F) w = (Ok (indicesOf (vault w) F), w).
Proof. destruct w; reflexivity. Qed.

Lemma getTotalPurchases_eq (w : World T) :
  call getTotalPurchases w = (Ok (count w), w).
Proof. destruct w; reflexivity. Qed.

Lemma getPurchase_ok id (w : World T) :
  0 <= id < count w ->
  exists p, purchases (vault w) !! Z.to_nat id = Some p
            /\ call (getPurchase id) w = (Ok p, w).
Proof.
  unfold count. intros Hid.
  destruct (purchases (vault w) !! Z.to_nat id) as [p|] eqn:E.
  - exists p. split; [reflexivity|]. destruct w as [v t].
    apply call_ok. unfold getPurchase. cbn [vault] in *. wp_forward.
    rewrite E. wp_forward. split; reflexivity.
  - apply lookup_ge_None in E. lia.
Qed.

Lemma getPurchase_invalid id (w : World T) :
  count w <= id ->
  call (getPurchase id) w = (Err (Revert "Invalid purchase ID"), w).
Proof.
  unfold count. intros Hid. apply call_err. unfold getPurchase.
  wp_forward. reflexivity.
Qed.

(** ** One transaction and the tables *)

Lemma exec_botFlag tx (w : World T) F B :
  botFlag (accountOf (vault (snd (exec tx w))) F) B
  <> botFlag (accountOf (vault w) F) B ->
  tx_sender tx = F /\ (tx_op tx = AuthorizeBot B \/ tx_op tx = RevokeBot B).
Proof.
  destruct (exec_cases tx w) as [[e E]|(res & w' & E)]; rewrite E;
    cbn [snd]; [congruence|].
  apply exec_ok_vault in E as [-> _]. unfold effect.
  destruct tx as [s ts op]. cbn [tx_op tx_sender tx_time].
  destruct (decide (s = F)) as [->|Hs].
  - destruct op as [x|x|b|b|d p|f r x md|x|x]; autorewrite with vault;
      try congruence.
    + destruct (decide (b = B)) as [->|Hb]; [auto|].
      rewrite botFlag_set_bot_ne by assumption. congruence.
    + destruct (decide (b = B)) as [->|Hb]; [auto|].
      rewrite botFlag_set_bot_ne by assumption. congruence.
    + destruct (purchased_facts (vault w) F f r x md ts)
        as [(_ & _ & _ & _ & _ & Hbf) _].
      destruct (decide (f = F)) as [->|Hf].
      * rewrite Hbf. congruence.
      * rewrite accountOf_purchased_ne by assumption. congruence.
  - destruct op as [x|x|b|b|d p|f r x md|x|x]; autorewrite with vault;
      try congruence.
    destruct (purchased_facts (vault w) s f r x md ts)
      as [(_ & _ & _ & _ & _ & Hbf) _].
    destruct (decide (f = F)) as [->|Hf].
    + rewrite Hbf. congruence.
    + rewrite accountOf_purchased_ne by assumption. congruence.
Qed.

Lemma exec_frame tx (w : World T) F :
  subject tx <> Some F ->
  accountOf (vault (snd (exec tx w))) F = accountOf (vault w) F
  /\ indicesOf (vault (snd (exec tx w))) F = indicesOf (vault w) F.
Proof.
  intros Hsub.
  destruct (exec_cases tx w) as [[e E]|(res & w' & E)]; rewrite E;
    cbn [snd]; [split; reflexivity|].
  apply exec_ok_vault in E as [-> _]. unfold effect.
  destruct tx as [s ts op]. unfold subject in Hsub.
  cbn [tx_op tx_sender tx_time] in *.
  destruct op as [x|x|b|b|d p|f r x md|x|x];
    try (assert (s <> F) by congruence); autorewrite with vault;
    try (split; reflexivity).
  assert (f <> F) by congruence.
  by rewrite accountOf_purchased_ne, indicesOf_purchased_ne.
Qed.

Lemma exec_ledger tx (w : World T) :
  match fst (exec tx w) with
  | Ok (Some id) =>
      id = count w
      /\ exists p, purchases (vault (snd (exec tx w)))
                   = purchases (vault w) ++ [p]
  | _ => purchases (vault (snd (exec tx w))) = purchases (vault w)
  end.
Proof.
  destruct (exec_cases tx w) as [[e E]|(res & w' & E)]; rewrite E;
    cbn [fst snd]; [reflexivity|].
  apply exec_ok_vault in E as [-> ->]. unfold effect, returned, count.
  destruct tx as [s ts op]. cbn [tx_op tx_sender tx_time].
  destruct op as [x|x|b|b|d p|f r x md|x|x]; autorewrite with vault;
    try reflexivity.
  split; [reflexivity|].
  destruct (purchased_facts (vault w) s f r x md ts)
    as [_ (_ & _ & _ & Hled & _)].
  eauto.
Qed.

(** ** Blocks of transactions *)

Lemma run_ledger txs (w : World T) :
  exists added,
    purchases (vault (run txs w)) = purchases (vault w) ++ added
    /\ length added = length (issued txs w)
    /\ forall i id, issued txs w !! i = Some id -> id = count w + Z.of_nat i.
Proof.
  revert w. induction txs as [|tx rest IH]; intros w; cbn [run issued].
  - exists []. rewrite app_nil_r. repeat split. intros i id Hi.
    by rewrite lookup_nil in Hi.
  - destruct (IH (snd (exec tx w))) as (added & Happ & Hlen & Hids).
    pose proof (exec_ledger tx w) as Hstep.
    destruct (fst (exec tx w)) as [[id|]|e].
    + destruct Hstep as [-> [p Hp]].
      exists (p :: added). rewrite Happ, Hp, <- app_assoc.
      repeat split; [simpl; congruence|].
      intros [|i] id' Hi; cbn in Hi.
      * injection Hi as <-. lia.
      * apply Hids in Hi. subst id'. unfold count. rewrite Hp, length_app.
        simpl. lia.
    + exists added. rewrite Happ, Hstep. repeat split; [assumption|].
      intros i id Hi. apply Hids in Hi. unfold count in *.
      by rewrite Hstep in Hi.
    + exists added. rewrite Happ, Hstep. repeat split; [assumption|].
      intros i id Hi. apply Hids in Hi. unfold count in *.
      by rewrite Hstep in Hi.
Qed.

Lemma run_frame txs (w : World T) F :
  Forall (fun tx => subject tx <> Some F) txs ->
  accountOf (vault (run txs w)) F = accountOf (vault w) F
  /\ indicesOf (vault (run txs w)) F = indicesOf (vault w) F.
Proof.
  intros Hall. revert w.
  induction Hall as [|tx rest Htx _ IH]; intros w; cbn [run].
  - split; reflexivity.
  - destruct (IH (snd (exec tx w))) as [-> ->]. by apply exec_frame.
Qed.

Lemma getPurchase_ok_inv id p (w w' : World T) :
  call (getPurchase id) w = (Ok p, w') ->
  purchases (vault w) !! Z.to_nat id = Some p /\ id < count w /\ w' = w.
Proof.
  intros H. pattern p, w'. eapply call_ok_inv; [clear H | exact H].
  unfold getPurchase, count. wp_norm.
  destruct (id <? Z.of_nat (length (purchases (vault w)))) eqn:E;
    [|exact I].
  destruct (purchases (vault w) !! Z.to_nat id) as [q|] eqn:Eq; wp_norm;
    [|exact I].
  repeat split. lia.
Qed.

(** C7 (authorisation is per fund).  For two distinct funds [F1] and [F2]
    and any bot [B]: [authorizeBot B] sent by [F1] leaves
    [isBotAuthorized F2 B] as it was; so does every transaction that works
    on [F1]; and the only transactions that can change
    [isBotAuthorized F2 B] are [authorizeBot B] and [revokeBot B] sent by
    [F2] itself. *)
Theorem authorization_is_per_fund (w : World T) (F1 F2 B : address) :
  F1 <> F2 ->
  let authorised (x : World T) := fst (call (isBotAuthorized F2 B) x) in
  (forall ts,
      authorised (snd (exec (mkTx F1 ts (AuthorizeBot B)) w)) = authorised w)
  /\ (forall tx,
        subject tx = Some F1 -> authorised (snd (exec tx w)) = authorised w)
  /\ (forall tx,
        authorised (snd (exec tx w)) <> authorised w ->
        tx_sender tx = F2
        /\ (tx_op tx = AuthorizeBot B \/ tx_op tx = RevokeBot B)).
Proof.
  intros Hne authorised.
  assert (Hchange : forall tx,
             authorised (snd (exec tx w)) <> authorised w ->
             tx_sender tx = F2
             /\ (tx_op tx = AuthorizeBot B \/ tx_op tx = RevokeBot B)).
  { intros tx Hdiff. apply (exec_botFlag tx w F2 B).
    intros Heq. apply Hdiff. unfold authorised.
    rewrite !isBotAuthorized_eq. cbn [fst]. by rewrite Heq. }
  assert (Hsame : forall tx,
             subject tx = Some F1 ->
             authorised (snd (exec tx w)) = authorised w).
  { intros tx Hsub. unfold authorised. rewrite !isBotAuthorized_eq.
    cbn [fst]. f_equal.
    destruct (decide (botFlag (accountOf (vault (snd (exec tx w))) F2) B
                      = botFlag (accountOf (vault w) F2) B))
      as [Heq|Hdiff]; [exact Heq|].
    apply exec_botFlag in Hdiff as [Hs [Hop|Hop]];
      unfold subject in Hsub; rewrite Hop in Hsub; congruence. }
  repeat split.
  - intros ts. apply Hsame. reflexivity.
  - exact Hsame.
  - by apply Hchange.
  - by apply Hchange.
Qed.

(** C8 (the ledger is append-only).  Purchase ids are dense and in order:
    the [i]-th purchase that commits in a block gets the id
    [count + i], which is its position in the ledger; [count] never
    decreases; a record read once by [getPurchase] is read again, identical,
    after any further transactions; and [getPurchase id] fails with
    "Invalid purchase ID" exactly when [id >= count]. *)
Theorem ledger_is_append_only (w : World T) (txs : list Tx) :
  let w' := run txs w in
  (exists added, purchases (vault w') = purchases (vault w) ++ added)
  /\ (purchases (vault w) = [] ->
      forall i id, issued txs w !! i = Some id -> id = Z.of_nat i)
  /\ (forall i id, issued txs w !! i = Some id -> id = count w + Z.of_nat i)
  /\ (forall tx id,
        fst (exec tx w) = Ok (Some id) ->
        id = count w
        /\ exists p,
            purchases (vault (snd (exec tx w))) = purchases (vault w) ++ [p]
            /\ purchases (vault (snd (exec tx w))) !! Z.to_nat id = Some p)
  /\ count w' = count w + Z.of_nat (length (issued txs w))
  /\ count w <= count w'
  /\ (forall id p,
        call (getPurchase id) w = (Ok p, w) ->
        call (getPurchase id) w' = (Ok p, w'))
  /\ (forall id,
        0 <= id ->
        call (getPurchase id) w = (Err (Revert "Invalid purchase ID"), w)
        <-> count w <= id)
  /\ call getTotalPurchases w = (Ok (count w), w).
Proof.
  intros w'. destruct (run_ledger txs w) as (added & Happ & Hlen & Hids).
  fold w' in Happ.
  assert (Hcount : count w' = count w + Z.of_nat (length (issued txs w))).
  { unfold count. rewrite Happ, length_app, Hlen. lia. }
  split; [by exists added|]. split.
  { intros Hempty i id Hi. apply Hids in Hi. unfold count in Hi.
    rewrite Hempty in Hi. simpl in Hi. lia. }
  split; [exact Hids|]. split.
  { intros tx id Hid. pose proof (exec_ledger tx w) as Hstep.
    rewrite Hid in Hstep. destruct Hstep as [-> [p Hp]].
    split; [reflexivity|]. exists p. split; [exact Hp|].
    unfold count. rewrite Hp, Nat2Z.id. by apply list_lookup_middle. }
  split; [exact Hcount|]. split; [lia|]. split.
  { intros id p Hget. apply getPurchase_ok_inv in Hget as (Hp & Hid & _).
    assert (Hp' : purchases (vault w') !! Z.to_nat id = Some p)
      by (rewrite Happ; by apply lookup_app_l_Some).
    destruct w' as [v' t']. apply call_ok. unfold getPurchase, count in *.
    cbn [vault] in *. wp_norm.
    assert (Hlt : (Z.to_nat id < length (purchases v'))%nat)
      by (by apply lookup_lt_Some in Hp').
    replace (id <? Z.of_nat (length (purchases v'))) with true by lia.
    rewrite Hp'. wp_norm. split; reflexivity. }
  split.
  { intros id Hid. split.
    - intros Herr. destruct (Z.le_gt_cases (count w) id) as [|Hlt]; [done|].
      destruct (getPurchase_ok id w) as (p & _ & Hok); [lia|].
      congruence.
    - apply getPurchase_invalid. }
  apply getTotalPurchases_eq.
Qed.

(** C10 (unknown funds).  After deployment and any block of transactions
    none of which works on fund [F], the queries on [F] do not fail:
    [getFundAccount F] returns five zeros, [isBotAuthorized F b] returns
    [false] for every bot, and [getFundPurchases F] returns the empty
    sequence. *)
Theorem unknown_fund_reads_as_zero
    (deployer self _usdc _treasury : address) (v0 : Vault) (tok : T)
    (txs : list Tx) (F : address) :
  constructor deployer self _usdc _treasury = Ok v0 ->
  Forall (fun tx => subject tx <> Some F) txs ->
  let w := run txs (mkWorld v0 tok) in
  call (getFundAccount F) w = (Ok (0, 0, 0, 0, 0), w)
  /\ (forall b, call (isBotAuthorized F b) w = (Ok false, w))
  /\ call (getFundPurchases F) w = (Ok [], w).
Proof.
  intros Hdeploy Hrest w.
  assert (Hinit : accountOf v0 F = zeroAccount /\ indicesOf v0 F = []).
  { unfold constructor in Hdeploy.
    destruct (_usdc =? 0); [discriminate|].
    destruct (_treasury =? 0); [discriminate|].
    injection Hdeploy as <-. split; reflexivity. }
  assert (Hkeep : accountOf (vault w) F = zeroAccount
                  /\ indicesOf (vault w) F = []).
  { subst w. destruct (run_frame txs (mkWorld v0 tok) F Hrest) as [-> ->].
    exact Hinit. }
  destruct Hkeep as [Hacc Hidx].
  rewrite getFundAccount_eq, getFundPurchases_eq, Hacc, Hidx.
  repeat split. intros b. by rewrite isBotAuthorized_eq, Hacc.
Qed.

End Frames.

(** * The properties on the concrete actors *)

Section Examples.

Import Demo.

Example limited_account :
  call (getFundAccount fund1) limited
  = (Ok (dollars 1000, dollars 500, dollars 150, 0, 0), limited).
Proof. vm_compute. reflexivity. Qed.

Example whale_account :
  call (getFundAccount fund1) whale
  = (Ok (2 ^ 255, 2 ^ 251, 2 ^ 250, 0, 0), whale).
Proof. vm_compute. reflexivity. Qed.

(** After two purchases of 150.00 under a daily limit of 500.00 the third
    purchase of the day is not refused: [300 + 150 <= 500]. *)
Lemma third_purchase_is_within_the_limit :
  let w2 := run (setup ++ [buy150; buy150]) world0 in
  todaySpent (accountOf (vault w2) fund1) = dollars 300
  /\ dailySpendingLimit (accountOf (vault w2) fund1) = dollars 500
  /\ fst (exec buy150 w2) = Ok (Some 2)
  /\ fst (exec buy150 w2) <> Err (Revert "Exceeds daily limit")
  /\ balance (accountOf (vault (snd (exec buy150 w2))) fund1) = dollars 541
  /\ todaySpent (accountOf (vault (snd (exec buy150 w2))) fund1)
     = dollars 450.
Proof. vm_compute. repeat split; discriminate. Qed.

(** At 200 bps the fee on 33.33 units is 666_600 smallest units, not 666. *)
Lemma fee_on_33_33_is_not_666 :
  let w' := snd (exec (tx bot1 (PurchaseOnBehalf fund1 recipient1 33330000
                                                  "Test")) funded) in
  platformFeeBps (vault funded) = 200
  /\ fst (exec (tx bot1 (PurchaseOnBehalf fund1 recipient1 33330000 "Test"))
               funded) = Ok (Some 0)
  /\ fee <$> purchases (vault w') !! 0%nat = Some 666600
  /\ fee <$> purchases (vault w') !! 0%nat <> Some 666
  /\ fst (call (computeFee 33330000) funded) = Ok 666600
  /\ 33330000 * 200 / 10000 <> 666.
Proof. vm_compute. repeat split; discriminate. Qed.

(** With a per-transaction limit of [2 ^ 250], a daily limit of twice that
    and a balance of [2 ^ 255], the first purchase at the limit reverts: the
    product [amount * platformFeeBps] does not fit in 256 bits. *)
Lemma huge_purchase_overflows_the_fee :
  let a := accountOf (vault whale) fund1 in
  let L := 2 ^ 250 in
  perTransactionLimit a = L
  /\ dailySpendingLimit a = 2 * L
  /\ botFlag a bot1 = true
  /\ todaySpent a = 0
  /\ 3 * (L + L * platformFeeBps (vault whale) / BPS_DIVISOR) <= balance a
  /\ is_uint256 L
  /\ pays vaultAddr recipient1 L (token whale) <> None
  /\ call (purchaseOnBehalf bot1 fund1 recipient1 L "svc" noon) whale
     = (Err (Panic PANIC_ARITH), whale).
Proof. vm_compute. repeat split; discriminate. Qed.

Lemma end_to_end_scenario_on_demo :
  let w3 := run (setup ++ [buy150; buy150; buy150]) world0 in
  accountOf (vault world0) fund1 = zeroAccount
  /\ exec buy150 w3 = (Err (Revert "Exceeds daily limit"), w3).
Proof.
  split; [vm_compute; reflexivity|].
  refine (proj2 (proj2 (proj2
    (end_to_end_scenario world0 fund1 bot1 recipient1 "svc"
       noon noon noon noon noon noon noon
       (token (run [tx fund1 (Deposit (dollars 1000))] world0))
       (token (run (setup ++ [buy150; buy150; buy150]) world0))
       _ _ _ _ _ _ _ _ _)))).
  all: try (vm_compute; reflexivity).
  all: discriminate.
Defined.

Lemma fee_is_floor_on_demo :
  let buy := purchaseOnBehalf bot1 fund1 recipient1 33330000 "Test" noon in
  fst (call buy funded) = Ok 0
  /\ call (computeFee 33330000) funded = (Ok 666600, funded).
Proof.
  split; [vm_compute; reflexivity|].
  refine (proj1 (fee_is_floor_of_rate funded
                   (snd (call (purchaseOnBehalf bot1 fund1 recipient1
                                                33330000 "Test" noon) funded))
                   bot1 fund1 recipient1 33330000 "Test" noon 0 _)).
  vm_compute. reflexivity.
Defined.

Lemma transfer_failure_on_demo :
  let buy := purchaseOnBehalf bot1 fund1 recipient1 (dollars 150) "svc" noon in
  pays vaultAddr recipient1 (dollars 150) (token unbacked) = None
  /\ balance (accountOf (vault (snd (buy unbacked))) fund1) = dollars 847
  /\ balance (accountOf (vault (snd (call buy unbacked))) fund1)
     = dollars 1000
  /\ exists e, call buy unbacked = (Err e, unbacked).
Proof.
  split; [vm_compute; reflexivity|].
  split; [vm_compute; reflexivity|].
  split; [vm_compute; reflexivity|].
  destruct (transfer_failure_rolls_back unbacked bot1 fund1 recipient1
              (dollars 150) "svc" noon) as [(e & He & _) _].
  - discriminate.
  - unfold admissible. vm_compute. repeat split; intros; discriminate.
  - left. vm_compute. reflexivity.
  - exists e. exact He.
Defined.

Lemma daily_limit_resets_on_demo :
  let buy ts := call (purchaseOnBehalf bot1 fund1 recipient1 (dollars 150)
                                       "svc" ts) in
  let w2 := snd (buy noon (snd (buy noon tight))) in
  dailySpendingLimit (accountOf (vault tight) fund1) = 2 * dollars 150
  /\ buy noon w2 = (Err (Revert "Exceeds daily limit"), w2)
  /\ fst (buy (noon + ONE_DAY) (snd (buy noon w2))) = Ok 2.
Proof.
  split; [vm_compute; reflexivity|].
  pose proof (daily_limit_resets_on_a_new_day tight bot1 fund1 recipient1
                (dollars 150) "svc" noon noon noon (noon + ONE_DAY)
                (token (run [buy150; buy150;
                             mkTx bot1 (noon + ONE_DAY)
                                  (PurchaseOnBehalf fund1 recipient1
                                                    (dollars 150) "svc")]
                            tight))) as H.
  cbv zeta in H.
  destruct H as (_ & _ & _ & H3 & H4 & _).
  1-14: vm_compute; try reflexivity; try discriminate.
  - left. reflexivity.
  - vm_compute. reflexivity.
  - split; [exact H3 | exact H4].
Defined.

Lemma per_transaction_limit_on_demo :
  let L := perTransactionLimit (accountOf (vault limited) fund1) in
  L = dollars 150
  /\ call (purchaseOnBehalf bot1 fund1 recipient1 (L + 1) "svc" noon) limited
     = (Err (Revert "Exceeds per-transaction limit"), limited).
Proof.
  split; [vm_compute; reflexivity|].
  refine (proj2 (proj2
    (per_transaction_limit_boundary limited bot1 fund1 recipient1 "svc" noon
       _ _ _))).
  - vm_compute. reflexivity.
  - discriminate.
  - vm_compute. reflexivity.
Defined.

Lemma authorization_is_per_fund_on_demo :
  let w' := snd (exec (tx fund1 (AuthorizeBot bot1)) world0) in
  fund1 <> fund2
  /\ fst (call (isBotAuthorized fund1 bot1) w') = Ok true
  /\ fst (call (isBotAuthorized fund2 bot1) w')
     = fst (call (isBotAuthorized fund2 bot1) world0).
Proof.
  split; [discriminate|]. split; [vm_compute; reflexivity|].
  refine (proj1 (authorization_is_per_fund world0 fund1 fund2 bot1 _) noon).
  discriminate.
Defined.

Lemma ledger_is_append_only_on_demo :
  let w := run (setup ++ [buy150]) world0 in
  let p := mkPurchase fund1 bot1 recipient1 (dollars 150) (dollars 3) noon
                      "svc" in
  call (getPurchase 0) w = (Ok p, w)
  /\ call (getPurchase 0) (run [buy150; buy150] w)
     = (Ok p, run [buy150; buy150] w).
Proof.
  assert (H : call (getPurchase 0) (run (setup ++ [buy150]) world0)
              = (Ok (mkPurchase fund1 bot1 recipient1 (dollars 150)
                                (dollars 3) noon "svc"),
                 run (setup ++ [buy150]) world0))
    by (vm_compute; reflexivity).
  split; [exact H|].
  exact (proj1 (proj2 (proj2 (proj2 (proj2 (proj2 (proj2
           (ledger_is_append_only (run (setup ++ [buy150]) world0)
                                  [buy150; buy150])))))))
           0 _ H).
Defined.

Lemma bot_pays_itself_on_demo :
  admissible (vault limited) bot1 fund1 (dollars 150) noon
  /\ exists w',
      call (purchaseOnBehalf bot1 fund1 bot1 (dollars 150) "svc" noon) limited
      = (Ok (Z.of_nat (length (purchases (vault limited)))), w')
      /\ recipient <$> last (purchases (vault w')) = Some bot1.
Proof.
  assert (Hadm : admissible (vault limited) bot1 fund1 (dollars 150) noon).
  { unfold admissible. vm_compute. repeat split; intros; discriminate. }
  split; [exact Hadm|].
  destruct (proj2 (recipient_is_unconstrained limited bot1 fund1
                     (dollars 150) "svc" noon)
              bot1
              (token (snd (usdc_transfer bot1 (dollars 150) limited)))
              (token (snd (call (purchaseOnBehalf bot1 fund1 bot1
                                   (dollars 150) "svc" noon) limited))))
    as (w' & Hcall & _ & Hlast & _).
  - left. reflexivity.
  - discriminate.
  - exact Hadm.
  - vm_compute. reflexivity.
  - vm_compute. reflexivity.
  - exists w'. split; [exact Hcall|]. rewrite Hlast. reflexivity.
Defined.

Lemma unknown_fund_on_demo :
  constructor deployer vaultAddr usdcAddr treasuryAddr = Ok vault0
  /\ call (getFundAccount fund2) (run (setup ++ [buy150]) world0)
     = (Ok (0, 0, 0, 0, 0), run (setup ++ [buy150]) world0).
Proof.
  split; [vm_compute; reflexivity|].
  refine (proj1 (unknown_fund_reads_as_zero deployer vaultAddr usdcAddr
                   treasuryAddr vault0 token0 (setup ++ [buy150]) fund2
                   _ _)).
  - vm_compute. reflexivity.
  - repeat constructor; discriminate.
Defined.

End Examples.

(** * Every transaction: when it commits, and what it keeps *)

Section Guards.

Context {T : Type} `{Token : IERC20 T}.

Lemma exec_ok_guard tx (w w' : World T) res :
  exec tx w = (Ok res, w') -> guard tx (vault w).
Proof.
  destruct tx as [s ts op]. unfold guard.
  cbn [tx_op tx_sender tx_time].
  destruct op as [x|x|b|b|d p|f r x md|x|x].
  6: { rewrite exec_purchase.
       destruct (call (purchaseOnBehalf s f r x md ts) w) as [[id|e] w1] eqn:E;
         [|discriminate].
       intros _. apply purchase_ok_inv in E. tauto. }
  all: intros E; pattern res, w'; eapply call_ok_inv; [clear E | exact E].
  all: unfold dispatch, unit_result, deposit, withdraw, authorizeBot,
         revokeBot, setLimits, setPlatformFee, setTreasury.
  all: cbn [tx_op tx_sender tx_time].
  all: wp_cases.
  all: try (split; lia); lia.
Qed.

Lemma exec_inv tx (w : World T) :
  (exists e, exec tx w = (Err e, w))
  \/ (exists t',
        exec tx w = (Ok (returned tx (vault w)),
                     mkWorld (effect tx (vault w)) t')
        /\ guard tx (vault w)).
Proof.
  destruct (exec_cases tx w) as [?|(res & w' & E)]; [by left|right].
  pose proof (exec_ok_guard _ _ _ _ E) as Hg.
  pose proof (exec_ok_vault _ _ _ _ E) as [Hv ->].
  exists (token w'). split; [|exact Hg]. rewrite E. f_equal.
  destruct w' as [v' t']. cbn [vault token] in *. by rewrite Hv.
Qed.

(** A property of the storage that every committed transaction keeps holds
    after any block. *)
Lemma run_invariant (P : Vault -> Prop) (G : Tx -> Prop) txs (w : World T) :
  (forall tx v, G tx -> P v -> guard tx v -> P (effect tx v)) ->
  Forall G txs ->
  P (vault w) ->
  P (vault (run txs w)).
Proof.
  intros Hstep Hall. revert w.
  induction Hall as [|tx rest Htx _ IH]; intros w Hw; cbn [run]; [exact Hw|].
  apply IH. destruct (exec_inv tx w) as [[e ->]|(t' & -> & Hg)];
    cbn [snd vault]; auto.
Qed.

End Guards.

Section Soundness.

Context {T : Type} `{Token : IERC20 T}.

Lemma wf_zeroAccount : wf_account zeroAccount.
Proof. unfold wf_account, is_uint256. vm_compute. repeat split; discriminate. Qed.

Lemma dayIndex_range ts : is_uint256 ts -> is_uint256 (dayIndex ts).
Proof.
  unfold is_uint256, dayIndex, ONE_DAY. intros [Hlo Hhi]. split.
  - apply Z.div_pos; lia.
  - apply Z.le_trans with ts; [|exact Hhi].
    apply Z.div_le_upper_bound; lia.
Qed.

Lemma sound_constructor deployer self _usdc _treasury v0 :
  constructor deployer self _usdc _treasury = Ok v0 -> sound v0.
Proof.
  unfold constructor.
  destruct (_usdc =? 0) eqn:Eu; [discriminate|].
  destruct (_treasury =? 0) eqn:Et; [discriminate|].
  intros [= <-]. unfold sound. cbn [platformFeeBps treasury].
  repeat split; try (vm_compute; discriminate); try lia.
  all: try (left; reflexivity).
Qed.

Lemma sound_effect tx v :
  wf_tx tx -> sound v -> guard tx v -> sound (effect tx v).
Proof.
  intros [Hts Hop] (Hbps & Htr & Hacc) Hg.
  destruct tx as [s ts op]. unfold effect, guard in *.
  cbn [tx_op tx_sender tx_time] in *.
  assert (Hframe : forall (a' : FundAccount) g,
             (wf_account a'
              /\ (dailySpendingLimit a' = 0
                  \/ perTransactionLimit a' <= dailySpendingLimit a')) ->
             wf_account (accountOf (setAccount s a' v) g)
             /\ (dailySpendingLimit (accountOf (setAccount s a' v) g) = 0
                 \/ perTransactionLimit (accountOf (setAccount s a' v) g)
                    <= dailySpendingLimit (accountOf (setAccount s a' v) g))).
  { intros a' g Ha'. destruct (decide (s = g)) as [->|Hne];
      autorewrite with vault; [exact Ha' | apply Hacc]. }
  destruct (Hacc s) as [(Hb & Hd & Hp & Hsp & Hl) Hord].
  unfold is_uint256 in *.
  destruct op as [x|x|b|b|d p|f r x md|x|x]; unfold sound;
    autorewrite with vault.
  1-5: repeat split; try assumption; try apply Hframe;
       unfold wf_account, is_uint256;
       cbn [balance dailySpendingLimit perTransactionLimit todaySpent
            lastResetDay set_balance set_bot set_limits];
       repeat split; try assumption; try lia.
  - (* purchase *)
    unfold purchased. autorewrite with vault.
    split; [exact Hbps|]. split; [exact Htr|].
    intros g.
    destruct (decide (f = g)) as [<-|Hne];
      [|autorewrite with vault; apply Hacc].
    autorewrite with vault.
    destruct (Hacc f) as [(Hbf & Hdf & Hpf & Hsf & Hlf) Hordf].
    destruct Hg as (Hr & Hx & _ & _ & _ & Hfit & _ & _ & Hbal).
    assert (Hfee : 0 <= feeOf v x)
      by (unfold feeOf, BPS_DIVISOR; apply Z.div_pos; nia).
    pose proof (dayIndex_range ts Hts) as [Hd0 Hd1].
    unfold debited, wf_account, is_uint256 in *; cbv zeta.
    cbn [balance dailySpendingLimit perTransactionLimit todaySpent
         lastResetDay set_balance set_todaySpent].
    autorewrite with vault in *.
    rewrite lastResetDay_refreshed. rewrite todaySpent_refreshed in *.
    destruct (dayIndex ts >? lastResetDay (accountOf v f));
      repeat split; try assumption; lia.
  - cbn [platformFeeBps treasury set_platformFeeBps].
    repeat split; try assumption; try lia; apply Hacc.
  - cbn [platformFeeBps treasury set_treasury].
    repeat split; try assumption; try lia; apply Hacc.
Qed.

Lemma reachable_sound (w : World T) :
  reachable w -> sound (vault w).
Proof.
  intros (deployer & self & u & t & v0 & tok & txs & Hdeploy & Hwf & ->).
  apply run_invariant with (G := wf_tx); [|exact Hwf|].
  - intros tx v. apply sound_effect.
  - cbn [vault]. by eapply sound_constructor.
Qed.

End Soundness.

(** * Deposits, withdrawals and bots *)

Section AccountOperations.

Context {T : Type} `{Token : IERC20 T}.

(** X1 (deposit).  Every way [deposit] ends: a zero amount is refused with
    "Amount must be greater than 0"; an error of the token is passed on; a
    token that answers [false] gives "Transfer failed"; a balance that would
    pass [2^256 - 1] gives the arithmetic panic; in each of these cases the
    world is unchanged.  Otherwise the call commits, the token is in the
    state [transferFrom] left, the balance of the sender grew by the amount
    and no other field and no other account changed. *)
Theorem deposit_outcomes (w : World T) s ts x :
  let a := accountOf (vault w) s in
  let self := this (vault w) in
  let outcome := exec (mkTx s ts (Deposit x)) w in
  (x <= 0 -> outcome = (Err (Revert "Amount must be greater than 0"), w))
  /\ (forall e,
        0 < x -> transferFrom self s self x (token w) = Err e ->
        outcome = (Err e, w))
  /\ (forall t',
        0 < x -> transferFrom self s self x (token w) = Ok (false, t') ->
        outcome = (Err (Revert "Transfer failed"), w))
  /\ (forall t',
        0 < x -> transferFrom self s self x (token w) = Ok (true, t') ->
        MAX_UINT256 < balance a + x ->
        outcome = (Err (Panic PANIC_ARITH), w))
  /\ (forall t',
        0 < x -> transferFrom self s self x (token w) = Ok (true, t') ->
        balance a + x <= MAX_UINT256 ->
        fst outcome = Ok None
        /\ token (snd outcome) = t'
        /\ accountOf (vault (snd outcome)) s
           = set_balance (balance a + x) a
        /\ forall g, g <> s ->
             accountOf (vault (snd outcome)) g = accountOf (vault w) g).
Proof.
  intros a self outcome. subst a self outcome.
  repeat match goal with |- _ /\ _ => split end.
  - intros Hx. apply call_err.
    unfold dispatch, unit_result, deposit. cbn [tx_op tx_sender tx_time].
    wp_forward. reflexivity.
  - intros e Hx Ht. apply call_err.
    unfold dispatch, unit_result, deposit. cbn [tx_op tx_sender tx_time].
    wp_forward. reflexivity.
  - intros t' Hx Ht. apply call_err.
    unfold dispatch, unit_result, deposit. cbn [tx_op tx_sender tx_time].
    wp_forward. reflexivity.
  - intros t' Hx Ht Hover. apply call_err.
    unfold dispatch, unit_result, deposit. cbn [tx_op tx_sender tx_time].
    wp_forward. reflexivity.
  - intros t' Hx Ht Hfit.
    rewrite (exec_deposit_ok w s ts x t' Hx Ht Hfit). cbn [fst snd vault token].
    autorewrite with vault. repeat split.
    intros g Hg. by autorewrite with vault.
Qed.

(** X2 (withdraw).  Every way [withdraw] ends: a zero amount is refused with
    "Amount must be greater than 0", an amount above the balance with
    "Insufficient balance", an error of the token is passed on, a token that
    answers [false] gives "Transfer failed", all with the world unchanged.
    Otherwise the call commits and only the sender's balance changed, by the
    amount; withdrawing the whole balance leaves exactly zero. *)
Theorem withdraw_outcomes (w : World T) s ts x :
  let a := accountOf (vault w) s in
  let self := this (vault w) in
  let outcome := exec (mkTx s ts (Withdraw x)) w in
  (x <= 0 -> outcome = (Err (Revert "Amount must be greater than 0"), w))
  /\ (0 < x -> balance a < x ->
      outcome = (Err (Revert "Insufficient balance"), w))
  /\ (forall e,
        0 < x <= balance a -> transfer self s x (token w) = Err e ->
        outcome = (Err e, w))
  /\ (forall t',
        0 < x <= balance a -> transfer self s x (token w) = Ok (false, t') ->
        outcome = (Err (Revert "Transfer failed"), w))
  /\ (forall t',
        0 < x <= balance a -> transfer self s x (token w) = Ok (true, t') ->
        fst outcome = Ok None
        /\ token (snd outcome) = t'
        /\ accountOf (vault (snd outcome)) s
           = set_balance (balance a - x) a
        /\ (x = balance a -> balance (accountOf (vault (snd outcome)) s) = 0)
        /\ forall g, g <> s ->
             accountOf (vault (snd outcome)) g = accountOf (vault w) g).
Proof.
  intros a self outcome. subst a self outcome.
  repeat match goal with |- _ /\ _ => split end.
  - intros Hx. apply call_err.
    unfold dispatch, unit_result, withdraw. cbn [tx_op tx_sender tx_time].
    wp_forward. reflexivity.
  - intros Hx Hb. apply call_err.
    unfold dispatch, unit_result, withdraw. cbn [tx_op tx_sender tx_time].
    wp_forward. reflexivity.
  - intros e Hx Ht. apply call_err.
    unfold dispatch, unit_result, withdraw. cbn [tx_op tx_sender tx_time].
    wp_forward. reflexivity.
  - intros t' Hx Ht. apply call_err.
    unfold dispatch, unit_result, withdraw. cbn [tx_op tx_sender tx_time].
    wp_forward. reflexivity.
  - intros t' Hx Ht.
    assert (E : exec (mkTx s ts (Withdraw x)) w
                = (Ok None,
                   mkWorld (setAccount s
                              (set_balance (balance (accountOf (vault w) s) - x)
                                           (accountOf (vault w) s))
                              (vault w)) t')).
    { apply call_ok.
      unfold dispatch, unit_result, withdraw. cbn [tx_op tx_sender tx_time].
      wp_forward. split; reflexivity. }
    rewrite E. cbn [fst snd vault token]. autorewrite with vault.
    repeat split.
    + intros ->. cbn [balance set_balance]. lia.
    + intros g Hg. by autorewrite with vault.
Qed.

End AccountOperations.

Section BotsAndChecks.

Context {T : Type} `{Token : IERC20 T}.


(** X4 (authorizeBot).  The null address is refused with "Invalid bot
    address", an address that is already authorised with "Bot already
    authorized", the world unchanged.  Otherwise the call commits without
    touching the token, [isBotAuthorized] then answers [true] for that bot,
    the flags of the other bots, the numbers [getFundAccount] reports and
    the other accounts are as before. *)
Theorem authorizeBot_outcomes (w : World T) s ts b :
  let a := accountOf (vault w) s in
  let outcome := exec (mkTx s ts (AuthorizeBot b)) w in
  (b = 0 -> outcome = (Err (Revert "Invalid bot address"), w))
  /\ (b <> 0 -> botFlag a b = true ->
      outcome = (Err (Revert "Bot already authorized"), w))
  /\ (b <> 0 -> botFlag a b = false ->
      fst outcome = Ok None
      /\ token (snd outcome) = token w
      /\ fst (call (isBotAuthorized s b) (snd outcome)) = Ok true
      /\ (forall c, c <> b ->
            botFlag (accountOf (vault (snd outcome)) s) c = botFlag a c)
      /\ call (getFundAccount s) (snd outcome)
         = (fst (call (getFundAccount s) w), snd outcome)
      /\ forall g, g <> s ->
           accountOf (vault (snd outcome)) g = accountOf (vault w) g).
Proof.
  intros a outcome. subst a outcome.
  repeat match goal with |- _ /\ _ => split end.
  - intros ->. apply call_err.
    unfold dispatch, unit_result, authorizeBot. cbn [tx_op tx_sender tx_time].
    wp_forward. reflexivity.
  - intros Hb Hflag. apply call_err.
    unfold dispatch, unit_result, authorizeBot. cbn [tx_op tx_sender tx_time].
    wp_forward. reflexivity.
  - intros Hb Hflag. rewrite (exec_authorizeBot_ok w s ts b Hb Hflag).
    cbn [fst snd vault token].
    repeat match goal with |- _ /\ _ => split end; try reflexivity.
    + unfold call, isBotAuthorized, aload, sload. cbn [fst vault].
      by autorewrite with vault.
    + intros c Hc. by autorewrite with vault.
    + destruct w as [v t]. unfold call, getFundAccount, bind, sload, ret.
      cbn [fst snd vault token]. by autorewrite with vault.
    + intros g Hg. by autorewrite with vault.
Qed.

Lemma exec_revokeBot_ok (w : World T) s ts b :
  let a := accountOf (vault w) s in
  botFlag a b = true ->
  exec (mkTx s ts (RevokeBot b)) w
  = (Ok None, mkWorld (setAccount s (set_bot b false a) (vault w)) (token w)).
Proof.
  intros a Hflag. subst a. apply call_ok.
  unfold dispatch, unit_result, revokeBot. cbn [tx_op tx_sender tx_time].
  wp_forward. split; reflexivity.
Qed.

(** X5 (authorizeBot, then revokeBot).  Revoking a bot that is not authorised
    fails with "Bot not authorized".  After [authorizeBot b] the revocation
    commits, and then every flag of every fund and every number of every
    account is as before the two calls; a second revocation fails again,
    and the bot can be authorised anew. *)
Theorem authorize_then_revoke (w : World T) s ts ts' ts'' b :
  let w1 := snd (exec (mkTx s ts (AuthorizeBot b)) w) in
  let w2 := snd (exec (mkTx s ts' (RevokeBot b)) w1) in
  b <> 0 ->
  botFlag (accountOf (vault w) s) b = false ->
  exec (mkTx s ts'' (RevokeBot b)) w = (Err (Revert "Bot not authorized"), w)
  /\ fst (exec (mkTx s ts' (RevokeBot b)) w1) = Ok None
  /\ (forall g c,
        botFlag (accountOf (vault w2) g) c = botFlag (accountOf (vault w) g) c)
  /\ (forall g,
        fst (call (getFundAccount g) w2) = fst (call (getFundAccount g) w))
  /\ exec (mkTx s ts'' (RevokeBot b)) w2
     = (Err (Revert "Bot not authorized"), w2)
  /\ fst (exec (mkTx s ts'' (AuthorizeBot b)) w2) = Ok None.
Proof.
  intros w1 w2 Hb Hflag.
  assert (Ew1 : w1 = mkWorld (setAccount s (set_bot b true
                                               (accountOf (vault w) s))
                                         (vault w)) (token w))
    by (unfold w1; by rewrite exec_authorizeBot_ok).
  clearbody w1. subst w1.
  assert (E2 : exec (mkTx s ts' (RevokeBot b))
                    (mkWorld (setAccount s (set_bot b true
                                              (accountOf (vault w) s))
                                         (vault w)) (token w))
               = (Ok None,
                  mkWorld (setAccount s
                             (set_bot b false
                                (set_bot b true (accountOf (vault w) s)))
                             (vault w)) (token w))).
  { rewrite exec_revokeBot_ok; cbn [vault token]; autorewrite with vault;
      reflexivity. }
  assert (Ew2 : w2 = mkWorld (setAccount s
                                (set_bot b false
                                   (set_bot b true (accountOf (vault w) s)))
                                (vault w)) (token w))
    by (unfold w2; rewrite E2; reflexivity).
  clearbody w2. subst w2. rewrite E2. cbn [fst].
  assert (Hflags : forall g c,
             botFlag (accountOf
                        (setAccount s
                           (set_bot b false
                              (set_bot b true (accountOf (vault w) s)))
                           (vault w)) g) c
             = botFlag (accountOf (vault w) g) c).
  { intros g c. destruct (decide (s = g)) as [->|Hg];
      [|by autorewrite with vault].
    autorewrite with vault. destruct (decide (b = c)) as [->|Hc].
    - by rewrite botFlag_set_bot_eq.
    - by rewrite !botFlag_set_bot_ne. }
  repeat match goal with |- _ /\ _ => split end.
  - apply call_err.
    unfold dispatch, unit_result, revokeBot. cbn [tx_op tx_sender tx_time].
    wp_forward. reflexivity.
  - reflexivity.
  - exact Hflags.
  - intros g. destruct w as [v t].
    unfold call, getFundAccount, bind, sload, ret. cbn [fst snd vault token].
    destruct (decide (s = g)) as [->|Hg]; by autorewrite with vault.
  - apply call_err.
    unfold dispatch, unit_result, revokeBot. cbn [tx_op tx_sender tx_time].
    wp_forward. reflexivity.
  - rewrite exec_authorizeBot_ok; [reflexivity|exact Hb|].
    cbn [vault]. by rewrite Hflags.
Qed.

(** X6 (who may purchase).  A purchase with a valid recipient and amount by a
    sender whose flag is not set on the fund fails with "Bot not authorized"
    and changes nothing.  The fund has no standing authorisation on its own
    account, and a bot loses its right with the revocation that commits. *)
Theorem unauthorized_sender_cannot_purchase (w : World T) s f r x md ts :
  r <> 0 ->
  0 < x ->
  (botFlag (accountOf (vault w) f) s = false ->
   call (purchaseOnBehalf s f r x md ts) w
   = (Err (Revert "Bot not authorized"), w))
  /\ (botFlag (accountOf (vault w) f) f = false ->
      call (purchaseOnBehalf f f r x md ts) w
      = (Err (Revert "Bot not authorized"), w))
  /\ (forall ts',
        fst (exec (mkTx f ts' (RevokeBot s)) w) = Ok None ->
        call (purchaseOnBehalf s f r x md ts)
             (snd (exec (mkTx f ts' (RevokeBot s)) w))
        = (Err (Revert "Bot not authorized"),
           snd (exec (mkTx f ts' (RevokeBot s)) w))).
Proof.
  intros Hr Hx.
  assert (Hgen : forall (w0 : World T) s0,
             botFlag (accountOf (vault w0) f) s0 = false ->
             call (purchaseOnBehalf s0 f r x md ts) w0
             = (Err (Revert "Bot not authorized"), w0)).
  { intros w0 s0 Hflag. apply call_err. unfold purchaseOnBehalf.
    wp_forward. reflexivity. }
  repeat match goal with |- _ /\ _ => split end.
  - apply Hgen.
  - apply Hgen.
  - intros ts' Hcommit.
    destruct (exec_inv (mkTx f ts' (RevokeBot s)) w)
      as [[e E]|[t' [E Hg]]]; rewrite E in Hcommit |- *;
      cbn [fst] in Hcommit; [discriminate|].
    apply Hgen. cbn [snd vault]. unfold effect. cbn [tx_op tx_sender].
    by autorewrite with vault.
Qed.

(** X7 (the order of the checks of purchaseOnBehalf).  The first check that
    fails decides the error, in this order: "Invalid recipient", "Amount
    must be greater than 0", "Bot not authorized", "Exceeds per-transaction
    limit", "Exceeds daily limit", "Insufficient balance"; the limits and
    the balance are read after the daily reset, and a refused purchase
    leaves the world as it was, the reset included. *)
Theorem purchase_checks_in_order (w : World T) s f r x md ts :
  let a := refreshed (accountOf (vault w) f) ts in
  let outcome := call (purchaseOnBehalf s f r x md ts) w in
  (r = 0 -> outcome = (Err (Revert "Invalid recipient"), w))
  /\ (r <> 0 -> x <= 0 ->
      outcome = (Err (Revert "Amount must be greater than 0"), w))
  /\ (r <> 0 -> 0 < x -> botFlag (accountOf (vault w) f) s = false ->
      outcome = (Err (Revert "Bot not authorized"), w))
  /\ (r <> 0 -> 0 < x -> botFlag (accountOf (vault w) f) s = true ->
      0 < perTransactionLimit a < x ->
      outcome = (Err (Revert "Exceeds per-transaction limit"), w))
  /\ (r <> 0 -> 0 < x -> botFlag (accountOf (vault w) f) s = true ->
      (0 < perTransactionLimit a -> x <= perTransactionLimit a) ->
      0 < dailySpendingLimit a ->
      todaySpent a + x <= MAX_UINT256 ->
      dailySpendingLimit a < todaySpent a + x ->
      outcome = (Err (Revert "Exceeds daily limit"), w))
  /\ (r <> 0 -> 0 < x -> botFlag (accountOf (vault w) f) s = true ->
      (0 < perTransactionLimit a -> x <= perTransactionLimit a) ->
      (0 < dailySpendingLimit a -> todaySpent a + x <= dailySpendingLimit a) ->
      todaySpent a + x <= MAX_UINT256 ->
      x * platformFeeBps (vault w) <= MAX_UINT256 ->
      x + feeOf (vault w) x <= MAX_UINT256 ->
      balance a < x + feeOf (vault w) x ->
      outcome = (Err (Revert "Insufficient balance"), w)).
Proof.
  intros a outcome. subst a outcome.
  repeat match goal with |- _ /\ _ => split end.
  - intros ->. apply call_err. unfold purchaseOnBehalf. wp_forward.
    reflexivity.
  - intros Hr Hx. apply call_err. unfold purchaseOnBehalf. wp_forward.
    reflexivity.
  - intros Hr Hx Hflag. apply call_err. unfold purchaseOnBehalf. wp_forward.
    reflexivity.
  - intros Hr Hx Hflag Hlim. autorewrite with vault in Hlim.
    apply purchase_exceeds_perTx; try assumption; lia.
  - intros Hr Hx Hflag HperTx Hdaily Hfit Hover.
    autorewrite with vault in *.
    apply purchase_exceeds_daily; assumption.
  - intros Hr Hx Hflag HperTx Hdaily Hfit Hmul Htot Hbal.
    unfold feeOf in *. autorewrite with vault in *.
    apply call_err. unfold purchaseOnBehalf, computeFee.
    wp_forward; reflexivity.
Qed.

End BotsAndChecks.

(** * Limits, the administrator, and the invariants of the storage *)

Section Invariants.

Context {T : Type} `{Token : IERC20 T}.

(** X8 (setLimits).  A per-transaction limit above a non-zero daily limit is
    refused with "Per-tx limit exceeds daily limit".  Every other pair is
    accepted, equal limits and a zero daily limit included, whatever was
    spent today: the two limits are stored, [todaySpent], the balance and
    the other accounts stay, and the token is not called. *)
Theorem setLimits_outcomes (w : World T) s ts d p :
  let a := accountOf (vault w) s in
  let outcome := exec (mkTx s ts (SetLimits d p)) w in
  (d <> 0 -> d < p ->
   outcome = (Err (Revert "Per-tx limit exceeds daily limit"), w))
  /\ (p <= d \/ d = 0 ->
      fst outcome = Ok None
      /\ token (snd outcome) = token w
      /\ accountOf (vault (snd outcome)) s = set_limits d p a
      /\ todaySpent (accountOf (vault (snd outcome)) s) = todaySpent a
      /\ balance (accountOf (vault (snd outcome)) s) = balance a
      /\ forall g, g <> s ->
           accountOf (vault (snd outcome)) g = accountOf (vault w) g).
Proof.
  intros a outcome. subst a outcome. split.
  - intros Hd Hp. apply call_err.
    unfold dispatch, unit_result, setLimits. cbn [tx_op tx_sender tx_time].
    wp_forward. reflexivity.
  - intros Hord. rewrite (exec_setLimits_ok w s ts d p Hord).
    cbn [fst snd vault token]. autorewrite with vault.
    repeat split. intros g Hg. by autorewrite with vault.
Qed.

(** X9 (the limits stay ordered).  In every world reached from a deployment,
    each account has a daily limit of zero or a per-transaction limit that
    is not above its daily limit. *)
Theorem limits_stay_ordered (w : World T) f :
  reachable w ->
  let a := accountOf (vault w) f in
  dailySpendingLimit a = 0 \/ perTransactionLimit a <= dailySpendingLimit a.
Proof.
  intros Hreach. apply reachable_sound in Hreach.
  destruct Hreach as (_ & _ & Hacc). apply Hacc.
Qed.

(** X10 (the numbers of an account stay 256-bit).  In every world reached
    from a deployment by calls whose arguments are [uint256] values, the
    five numbers of every account are within [0, 2^256 - 1]: the checked
    arithmetic of the vault never lets one of them wrap. *)
Theorem storage_stays_in_range (w : World T) f :
  reachable w ->
  let a := accountOf (vault w) f in
  is_uint256 (balance a)
  /\ is_uint256 (dailySpendingLimit a)
  /\ is_uint256 (perTransactionLimit a)
  /\ is_uint256 (todaySpent a)
  /\ is_uint256 (lastResetDay a).
Proof.
  intros Hreach. apply reachable_sound in Hreach.
  destruct Hreach as (_ & _ & Hacc). apply Hacc.
Qed.

(** X11 (setPlatformFee and setTreasury).  A caller other than the owner is
    refused by both, the world unchanged.  For the owner, a rate above
    [MAX_PLATFORM_FEE_BPS] is refused with "Fee too high" and every rate up
    to it, the bound included, is stored; the null address is refused with
    "Invalid treasury address" and every other address is stored.  Nothing
    else changes. *)
Theorem admin_setters_outcomes (w : World T) s ts x :
  let setFee := exec (mkTx s ts (SetPlatformFee x)) w in
  let setDest := exec (mkTx s ts (SetTreasury x)) w in
  (s <> owner (vault w) ->
   (exists e, setFee = (Err e, w)) /\ (exists e, setDest = (Err e, w)))
  /\ (s = owner (vault w) -> MAX_PLATFORM_FEE_BPS < x ->
      setFee = (Err (Revert "Fee too high"), w))
  /\ (s = owner (vault w) -> x <= MAX_PLATFORM_FEE_BPS ->
      setFee = (Ok None, mkWorld (set_platformFeeBps x (vault w)) (token w)))
  /\ (s = owner (vault w) -> x = 0 ->
      setDest = (Err (Revert "Invalid treasury address"), w))
  /\ (s = owner (vault w) -> x <> 0 ->
      setDest = (Ok None, mkWorld (set_treasury x (vault w)) (token w))).
Proof.
  intros setFee setDest. subst setFee setDest.
  repeat match goal with |- _ /\ _ => split end.
  - intros Hs. split; eexists; apply call_err;
      unfold dispatch, unit_result, setPlatformFee, setTreasury;
      cbn [tx_op tx_sender tx_time]; wp_forward; reflexivity.
  - intros Hs Hx. apply call_err.
    unfold dispatch, unit_result, setPlatformFee.
    cbn [tx_op tx_sender tx_time]. wp_forward. reflexivity.
  - intros Hs Hx. apply call_ok.
    unfold dispatch, unit_result, setPlatformFee.
    cbn [tx_op tx_sender tx_time]. wp_forward. split; reflexivity.
  - intros Hs Hx. apply call_err.
    unfold dispatch, unit_result, setTreasury.
    cbn [tx_op tx_sender tx_time]. wp_forward. reflexivity.
  - intros Hs Hx. apply call_ok.
    unfold dispatch, unit_result, setTreasury.
    cbn [tx_op tx_sender tx_time]. wp_forward. split; reflexivity.
Qed.

(** X12 (the fee rate and the treasury).  In every world reached from a
    deployment the fee rate is at most 1000 basis points and the treasury is
    not the null address; a transaction that changes the rate is a
    [setPlatformFee] sent by the owner, with the new rate as its argument,
    and one that changes the treasury is a [setTreasury] sent by the
    owner. *)
Theorem fee_and_treasury_are_owner_controlled (w : World T) tx :
  reachable w ->
  let w' := snd (exec tx w) in
  0 <= platformFeeBps (vault w) <= MAX_PLATFORM_FEE_BPS
  /\ treasury (vault w) <> 0
  /\ (platformFeeBps (vault w') <> platformFeeBps (vault w) ->
      tx_sender tx = owner (vault w)
      /\ tx_op tx = SetPlatformFee (platformFeeBps (vault w')))
  /\ (treasury (vault w') <> treasury (vault w) ->
      tx_sender tx = owner (vault w)
      /\ tx_op tx = SetTreasury (treasury (vault w'))).
Proof.
  intros Hreach w'. apply reachable_sound in Hreach.
  destruct Hreach as (Hbps & Htr & _).
  split; [exact Hbps|]. split; [exact Htr|].
  subst w'.
  destruct (exec_inv tx w) as [[e E]|(t' & E & Hg)]; rewrite E;
    cbn [snd vault]; [repeat split; congruence|].
  destruct tx as [s ts op]. unfold effect, guard in *.
  cbn [tx_op tx_sender tx_time] in *.
  destruct op as [x|x|b|b|d p|f r x md|x|x];
    unfold purchased, push_index, push_purchase, setAccount;
    cbn [owner platformFeeBps treasury set_platformFeeBps set_treasury];
    repeat split; first [congruence | destruct Hg; congruence].
Qed.

Lemma ledger_step tx v :
  sound v ->
  Forall well_recorded (purchases v) ->
  guard tx v ->
  Forall well_recorded (purchases (effect tx v)).
Proof.
  intros (Hbps & _ & _) Hall Hg.
  destruct tx as [s ts op]. unfold effect, guard in *.
  cbn [tx_op tx_sender tx_time] in *.
  destruct op as [x|x|b|b|d p|f r x md|x|x]; try exact Hall.
  destruct (purchased_facts v s f r x md ts) as [_ (_ & _ & _ & -> & _)].
  apply Forall_app. split; [exact Hall|]. apply Forall_cons.
  split; [|constructor].
  destruct Hg as (Hr & Hx & _). unfold well_recorded, feeOf.
  cbn [amount recipient fee]. unfold MAX_PLATFORM_FEE_BPS, BPS_DIVISOR in *.
  repeat split; try assumption.
  - apply Z.div_pos; nia.
  - assert (Hle : x * platformFeeBps v <= x * 1000) by nia.
    Z.div_mod_to_equations. lia.
Qed.

(** X13 (the fee is at most a tenth).  In every world reached from a
    deployment, each record of the ledger has a positive amount, a non-null
    recipient and a fee between zero and a tenth of the amount; a purchase
    that commits there charges such a fee and takes amount plus fee from
    the balance. *)
Theorem fee_is_at_most_a_tenth (w : World T) :
  reachable w ->
  Forall well_recorded (purchases (vault w))
  /\ forall s f r x md ts id w',
       call (purchaseOnBehalf s f r x md ts) w = (Ok id, w') ->
       0 <= feeOf (vault w) x
       /\ 10 * feeOf (vault w) x <= x
       /\ balance (accountOf (vault w) f) - balance (accountOf (vault w') f)
          = x + feeOf (vault w) x.
Proof.
  intros Hreach. split.
  - destruct Hreach
      as (deployer & self & u & t & v0 & tok & txs & Hdeploy & Hwf & ->).
    assert (Hboth : sound (vault (run txs (mkWorld v0 tok)))
                    /\ Forall well_recorded
                         (purchases (vault (run txs (mkWorld v0 tok))))).
    { apply run_invariant
        with (P := fun v => sound v
                            /\ Forall well_recorded (purchases v))
             (G := wf_tx); [|exact Hwf|].
      - intros tx v Htx [Hs Hl] Hg. split.
        + by apply sound_effect.
        + by eapply ledger_step.
      - cbn [vault]. split; [by eapply sound_constructor|].
        unfold constructor in Hdeploy.
        destruct (u =? 0); [discriminate|].
        destruct (t =? 0); [discriminate|].
        injection Hdeploy as <-. constructor. }
    apply Hboth.
  - intros s f r x md ts id w' Hcall.
    apply reachable_sound in Hreach. destruct Hreach as (Hbps & _ & _).
    apply purchase_ok_inv in Hcall.
    destruct Hcall as (Hr & Hadm & _ & t1 & t2 & _ & _ & ->).
    destruct Hadm as (Hx & _).
    destruct (purchased_facts (vault w) s f r x md ts) as [(Hb & _) _].
    cbn [vault]. rewrite Hb.
    unfold feeOf, MAX_PLATFORM_FEE_BPS, BPS_DIVISOR in *.
    repeat split.
    + apply Z.div_pos; nia.
    + assert (Hle : x * platformFeeBps (vault w) <= x * 1000) by nia.
      Z.div_mod_to_equations. lia.
    + lia.
Qed.

End Invariants.

(** * The ledger and its indices *)

Section Ledger.

Context {T : Type} `{Token : IERC20 T}.

Lemma positionsFrom_app F i ps qs :
  positionsFrom F i (ps ++ qs)
  = positionsFrom F i ps ++ positionsFrom F (i + length ps) qs.
Proof.
  revert i. induction ps as [|p ps IH]; intros i; cbn [positionsFrom app length].
  - by rewrite Nat.add_0_r.
  - rewrite IH. replace (S i + length ps)%nat with (i + S (length ps))%nat by lia.
    destruct (fund p =? F); reflexivity.
Qed.

Lemma positionsFrom_spec F ps i id :
  id ∈ positionsFrom F i ps ->
  exists p, ps !! (Z.to_nat id - i)%nat = Some p
            /\ fund p = F /\ Z.of_nat i <= id.
Proof.
  revert i. induction ps as [|p ps IH]; intros i; cbn [positionsFrom].
  - intros Hin. by apply elem_of_nil in Hin.
  - assert (Hrest : id ∈ positionsFrom F (S i) ps ->
              exists q, (p :: ps) !! (Z.to_nat id - i)%nat = Some q
                        /\ fund q = F /\ Z.of_nat i <= id).
    { intros Hin. apply IH in Hin as (q & Hq & Hf & Hle).
      exists q. split; [|split; [exact Hf | lia]].
      replace (Z.to_nat id - i)%nat with (S (Z.to_nat id - S i)) by lia.
      exact Hq. }
    destruct (Z.eqb_spec (fund p) F) as [Hf|Hf]; [|exact Hrest].
    intros Hin. apply elem_of_cons in Hin as [->|Hin]; [|by apply Hrest].
    exists p. rewrite Nat2Z.id, Nat.sub_diag. repeat split; [exact Hf | lia].
Qed.

Lemma index_step tx v :
  (forall F, indicesOf v F = positionsFrom F 0 (purchases v)) ->
  forall F, indicesOf (effect tx v) F
            = positionsFrom F 0 (purchases (effect tx v)).
Proof.
  intros Hidx F. destruct tx as [s ts op]. unfold effect.
  cbn [tx_op tx_sender tx_time].
  destruct op as [x|x|b|b|d p|f r x md|x|x]; autorewrite with vault;
    try apply Hidx.
  destruct (purchased_facts v s f r x md ts) as [_ (_ & _ & _ & Hled & Hi)].
  rewrite Hled, positionsFrom_app. cbn [positionsFrom fund Nat.add].
  destruct (Z.eqb_spec f F) as [->|Hne].
  - by rewrite Hi, Hidx.
  - rewrite indicesOf_purchased_ne by assumption.
    by rewrite app_nil_r.
Qed.

(** X14 (getFundPurchases).  After any block of transactions on a fresh
    deployment, the list [getFundPurchases F] returns is exactly the
    positions of the ledger whose record is for fund [F], in increasing
    order; every id in it is below [getTotalPurchases], and [getPurchase]
    on it returns a record of [F]. *)
Theorem fund_purchases_index_the_ledger
    (deployer self _usdc _treasury : address) (v0 : Vault) (tok : T)
    (txs : list Tx) (F : address) :
  constructor deployer self _usdc _treasury = Ok v0 ->
  let w := run txs (mkWorld v0 tok) in
  call (getFundPurchases F) w
  = (Ok (positionsFrom F 0 (purchases (vault w))), w)
  /\ forall id,
       id ∈ indicesOf (vault w) F ->
       0 <= id < count w
       /\ exists p, call (getPurchase id) w = (Ok p, w) /\ fund p = F.
Proof.
  intros Hdeploy w.
  assert (Hidx : forall G,
             indicesOf (vault w) G = positionsFrom G 0 (purchases (vault w))).
  { subst w.
    apply run_invariant
      with (P := fun v => forall G,
                   indicesOf v G = positionsFrom G 0 (purchases v))
           (G := fun _ => True).
    - intros tx v _ Hv _. by apply index_step.
    - apply Forall_forall. intros; exact I.
    - cbn [vault]. unfold constructor in Hdeploy.
      destruct (_usdc =? 0); [discriminate|].
      destruct (_treasury =? 0); [discriminate|].
      injection Hdeploy as <-. intros G. reflexivity. }
  split.
  - rewrite getFundPurchases_eq. by rewrite Hidx.
  - intros id Hin. rewrite Hidx in Hin.
    apply positionsFrom_spec in Hin as (p & Hp & Hf & Hle).
    rewrite Nat.sub_0_r in Hp.
    assert (Hlt : 0 <= id < count w).
    { apply lookup_lt_Some in Hp. unfold count. lia. }
    split; [exact Hlt|].
    destruct (getPurchase_ok id w Hlt) as (q & Hq & Hcall).
    exists q. split; [exact Hcall|]. congruence.
Qed.

(** X15 (a purchase and the views).  When a purchase commits with id [id]:
    [getTotalPurchases] was [id] before and is [id + 1] after;
    [getPurchase id] failed before and now returns the record with the fund,
    the sender as bot, the recipient, the amount, the fee at the current
    rate, the block time and the metadata; [getPurchase (id + 1)] fails;
    [getFundPurchases] of the fund has [id] appended and that of every
    other fund is unchanged. *)
Theorem purchase_is_visible_in_the_views
    (w w' : World T) s f r x md ts id :
  call (purchaseOnBehalf s f r x md ts) w = (Ok id, w') ->
  let record := mkPurchase f s r x (feeOf (vault w) x) ts md in
  call getTotalPurchases w = (Ok id, w)
  /\ call getTotalPurchases w' = (Ok (id + 1), w')
  /\ call (getPurchase id) w = (Err (Revert "Invalid purchase ID"), w)
  /\ call (getPurchase id) w' = (Ok record, w')
  /\ call (getPurchase (id + 1)) w'
     = (Err (Revert "Invalid purchase ID"), w')
  /\ call (getFundPurchases f) w' = (Ok (indicesOf (vault w) f ++ [id]), w')
  /\ forall g, g <> f ->
       call (getFundPurchases g) w' = (Ok (indicesOf (vault w) g), w').
Proof.
  intros Hcall record.
  apply purchase_ok_inv in Hcall as (_ & _ & -> & t1 & t2 & _ & _ & ->).
  destruct (purchased_facts (vault w) s f r x md ts)
    as [_ (_ & _ & _ & Hled & Hi)].
  assert (Hcount : count (mkWorld (purchased (vault w) s f r x md ts) t2)
                   = count w + 1).
  { unfold count. cbn [vault]. rewrite Hled, length_app. cbn [length]. lia. }
  repeat match goal with |- _ /\ _ => split end.
  - apply getTotalPurchases_eq.
  - rewrite getTotalPurchases_eq, Hcount. reflexivity.
  - apply getPurchase_invalid. unfold count. lia.
  - destruct (getPurchase_ok (Z.of_nat (length (purchases (vault w))))
                (mkWorld (purchased (vault w) s f r x md ts) t2))
      as (p & Hp & Hget).
    { rewrite Hcount. unfold count. lia. }
    rewrite Hget. cbn [vault] in Hp.
    rewrite Hled, Nat2Z.id, list_lookup_middle in Hp by reflexivity.
    by injection Hp as <-.
  - apply getPurchase_invalid. rewrite Hcount. unfold count. lia.
  - rewrite getFundPurchases_eq. cbn [vault]. by rewrite Hi.
  - intros g Hg. rewrite getFundPurchases_eq. cbn [vault].
    by rewrite indicesOf_purchased_ne.
Qed.

End Ledger.

(** * Days *)

Section DaysAndLimits.

Context {T : Type} `{Token : IERC20 T}.

Lemma refreshed_set_todaySpent a ts y :
  lastResetDay a < dayIndex ts ->
  refreshed (set_todaySpent y a) ts = refreshed a ts.
Proof.
  intros Hday. unfold refreshed. destruct a as [b d p sp l bots].
  cbn [lastResetDay set_todaySpent] in *.
  replace (dayIndex ts >? l) with true by lia. reflexivity.
Qed.

Lemma purchase_wp_new_day (v : Vault) (t : T) s f r x md ts y
    (Qok : uint256 -> World T -> Prop) (Qerr : Error -> Prop) :
  lastResetDay (accountOf v f) < dayIndex ts ->
  wp (purchaseOnBehalf s f r x md ts) Qok (fun e _ => Qerr e)
     (mkWorld (setAccount f (set_todaySpent y (accountOf v f)) v) t)
  = wp (purchaseOnBehalf s f r x md ts) Qok (fun e _ => Qerr e)
       (mkWorld v t).
Proof.
  intros Hday. unfold purchaseOnBehalf, computeFee. wp_norm.
  rewrite !(refreshed_set_todaySpent _ _ _ Hday).
  cbn [botFlag authorizedBots set_todaySpent]. reflexivity.
Qed.

(** X16 (the daily reset).  When the day of the block is after
    [lastResetDay], the stored [todaySpent] has no influence on a purchase:
    with any other value [y] in its place the call gives the same result
    and, when it commits, the same world. *)
Theorem a_new_day_forgets_the_old_total (w : World T) s f r x md ts y :
  let a := accountOf (vault w) f in
  let w_y := mkWorld (setAccount f (set_todaySpent y a) (vault w)) (token w) in
  let buy := call (purchaseOnBehalf s f r x md ts) in
  lastResetDay a < dayIndex ts ->
  match buy w with
  | (Ok id, w') => buy w_y = (Ok id, w')
  | (Err e, _) => buy w_y = (Err e, w_y)
  end.
Proof.
  intros a w_y buy Hday. subst a w_y buy. destruct w as [v t].
  cbn [vault token] in *.
  pose proof (purchase_wp_new_day v t s f r x md ts y) as Heq.
  unfold call.
  destruct (purchaseOnBehalf s f r x md ts (mkWorld v t)) as [[id|e] w'] eqn:E.
  - specialize (Heq (fun i u => i = id /\ u = w') (fun _ => False) Hday).
    unfold wp in Heq. rewrite E in Heq.
    destruct (purchaseOnBehalf s f r x md ts _) as [[i|e'] u].
    + assert (Hiu : i = id /\ u = w') by (rewrite Heq; auto).
      destruct Hiu as [-> ->]. reflexivity.
    + exfalso. rewrite Heq. auto.
  - specialize (Heq (fun _ _ => False) (fun e' => e' = e) Hday).
    unfold wp in Heq. rewrite E in Heq.
    destruct (purchaseOnBehalf s f r x md ts _) as [[i|e'] u].
    + exfalso. rewrite Heq. reflexivity.
    + assert (He : e' = e) by (rewrite Heq; reflexivity).
      by rewrite He.
Qed.

End DaysAndLimits.

Section LimitsOverTime.

Context {T : Type} `{Token : IERC20 T}.



(** X19 (who moves a balance).  A transaction that lowers the balance of fund
    [F] is a withdrawal sent by [F], which lowers it by its amount, or a
    purchase on [F] by a sender that [F] has authorised.  With a fee rate
    that is not negative, a transaction that raises it is a deposit sent by
    [F], which raises it by its amount. *)
Theorem balance_moves_only_by_its_fund (w : World T) tx F :
  let before := balance (accountOf (vault w) F) in
  let after := balance (accountOf (vault (snd (exec tx w))) F) in
  (after < before ->
   (tx_sender tx = F
    /\ exists x, tx_op tx = Withdraw x /\ after = before - x)
   \/ (botFlag (accountOf (vault w) F) (tx_sender tx) = true
       /\ exists r x md, tx_op tx = PurchaseOnBehalf F r x md))
  /\ (0 <= platformFeeBps (vault w) ->
      before < after ->
      tx_sender tx = F
      /\ exists x, tx_op tx = Deposit x /\ after = before + x).
Proof.
  intros before after. subst before after.
  destruct (exec_inv tx w) as [[e E]|(t' & E & Hg)]; rewrite E;
    cbn [snd vault]; [split; intros; lia|].
  destruct tx as [s ts op]. unfold effect, guard in *.
  cbn [tx_op tx_sender tx_time] in *.
  destruct op as [x|x|b|b|d p|f r x md|x|x].
  1-5: destruct (decide (s = F)) as [->|Hne]; autorewrite with vault;
       cbn [balance set_balance set_bot set_limits];
       (split; [intros Hlt | intros Hbps Hlt]); try lia.
  - split; [reflexivity|]. exists x. split; [reflexivity|lia].
  - left. split; [reflexivity|]. exists x. split; [reflexivity|lia].
  - destruct Hg as (Hr & Hadm).
    destruct (purchased_facts (vault w) s f r x md ts) as [(Hb & _) _].
    destruct (decide (f = F)) as [->|Hne].
    + rewrite Hb. split.
      * intros _. right. split; [apply Hadm|]. by exists r, x, md.
      * intros Hbps Hlt. destruct Hadm as (Hx & _).
        assert (0 <= feeOf (vault w) x)
          by (unfold feeOf, BPS_DIVISOR; apply Z.div_pos; nia).
        lia.
    + rewrite accountOf_purchased_ne by assumption. split; intros; lia.
  - autorewrite with vault. split; intros; lia.
  - autorewrite with vault. split; intros; lia.
Qed.

Lemma exec_lastResetDay tx (w : World T) F :
  let a := accountOf (vault w) F in
  let a' := accountOf (vault (snd (exec tx w))) F in
  lastResetDay a' = lastResetDay a
  \/ (lastResetDay a < lastResetDay a'
      /\ lastResetDay a' = dayIndex (tx_time tx)
      /\ exists r x md,
           tx_op tx = PurchaseOnBehalf F r x md /\ todaySpent a' = x).
Proof.
  cbv zeta.
  destruct (exec_inv tx w) as [[e E]|(t' & E & Hg)]; rewrite E;
    cbn [snd vault]; [by left|].
  destruct tx as [s ts op]. unfold effect, guard in *.
  cbn [tx_op tx_sender tx_time] in *.
  destruct op as [x|x|b|b|d p|f r x md|x|x].
  1-5: left; destruct (decide (s = F)) as [->|Hne]; autorewrite with vault;
       reflexivity.
  2-3: left; autorewrite with vault; reflexivity.
  destruct (decide (f = F)) as [->|Hne];
    [|left; by rewrite accountOf_purchased_ne].
  destruct (purchased_facts (vault w) s F r x md ts)
    as [(_ & Hs & Hl & _) _].
  rewrite Hl, Hs, todaySpent_refreshed.
  destruct (Z.gtb_spec (dayIndex ts) (lastResetDay (accountOf (vault w) F)))
    as [Hgt|Hle].
  - right. split; [lia|]. split; [lia|]. exists r, x, md. split; [reflexivity|lia].
  - left. lia.
Qed.

(** X20 (lastResetDay).  Over any block of transactions [lastResetDay] of a
    fund never decreases.  A transaction that changes it is a purchase on
    that fund that commits; the new value is what [getCurrentDay] returns in
    that block, and [todaySpent] is then the amount of that purchase. *)
Theorem lastResetDay_never_goes_back (w : World T) txs F :
  lastResetDay (accountOf (vault w) F)
  <= lastResetDay (accountOf (vault (run txs w)) F)
  /\ forall tx,
       let a := accountOf (vault w) F in
       let a' := accountOf (vault (snd (exec tx w))) F in
       lastResetDay a' <> lastResetDay a ->
       call (getCurrentDay (tx_time tx)) w = (Ok (lastResetDay a'), w)
       /\ lastResetDay a < lastResetDay a'
       /\ exists r x md,
            tx_op tx = PurchaseOnBehalf F r x md /\ todaySpent a' = x.
Proof.
  split.
  - revert w. induction txs as [|tx rest IH]; intros w; cbn [run]; [lia|].
    specialize (IH (snd (exec tx w))).
    destruct (exec_lastResetDay tx w F) as [Heq|(Hlt & _)]; lia.
  - intros tx a a' Hne. subst a a'.
    destruct (exec_lastResetDay tx w F) as [Heq|(Hlt & Hday & Hop)];
      [congruence|].
    split; [|split; assumption].
    rewrite Hday. destruct w as [v t]. apply call_ok.
    unfold getCurrentDay. wp_forward. split; reflexivity.
Qed.


(** X22 (what the limits count).  A purchase that commits adds its amount,
    without the fee, to [todaySpent], which starts from zero on a new day,
    and takes amount and fee from the balance; it leaves the limits as they
    are, keeps [todaySpent] within a non-zero daily limit and is itself
    within a non-zero per-transaction limit. *)
Theorem limits_count_the_principal_only
    (w w' : World T) s f r x md ts id :
  call (purchaseOnBehalf s f r x md ts) w = (Ok id, w') ->
  let a := accountOf (vault w) f in
  let a' := accountOf (vault w') f in
  todaySpent a' = todaySpent (refreshed a ts) + x
  /\ balance a' = balance a - x - feeOf (vault w) x
  /\ dailySpendingLimit a' = dailySpendingLimit a
  /\ perTransactionLimit a' = perTransactionLimit a
  /\ (0 < dailySpendingLimit a -> todaySpent a' <= dailySpendingLimit a)
  /\ (0 < perTransactionLimit a -> x <= perTransactionLimit a)
  /\ (dayIndex ts <= lastResetDay a -> todaySpent a' = todaySpent a + x)
  /\ (lastResetDay a < dayIndex ts -> todaySpent a' = x).
Proof.
  intros Hcall a a'. subst a a'.
  apply purchase_ok_inv in Hcall as (_ & Hadm & _ & t1 & t2 & _ & _ & ->).
  destruct Hadm as (_ & _ & HperTx & Hdaily & _).
  autorewrite with vault in *.
  destruct (purchased_facts (vault w) s f r x md ts)
    as [(Hb & Hs & _ & Hd & Hp & _) _].
  cbn [vault]. rewrite Hb, Hs, Hd, Hp.
  repeat split; try lia; try assumption.
  - intros Hday. rewrite todaySpent_refreshed.
    replace (dayIndex ts >? lastResetDay (accountOf (vault w) f)) with false
      by lia. reflexivity.
  - intros Hday. rewrite todaySpent_refreshed.
    replace (dayIndex ts >? lastResetDay (accountOf (vault w) f)) with true
      by lia. reflexivity.
Qed.

Lemma exec_setPlatformFee_ok (w : World T) s ts x :
  s = owner (vault w) ->
  x <= MAX_PLATFORM_FEE_BPS ->
  exec (mkTx s ts (SetPlatformFee x)) w
  = (Ok None, mkWorld (set_platformFeeBps x (vault w)) (token w)).
Proof.
  intros Hs Hx. apply call_ok.
  unfold dispatch, unit_result, setPlatformFee.
  cbn [tx_op tx_sender tx_time]. wp_forward. split; reflexivity.
Qed.

Lemma exec_setTreasury_ok (w : World T) s ts x :
  s = owner (vault w) ->
  x <> 0 ->
  exec (mkTx s ts (SetTreasury x)) w
  = (Ok None, mkWorld (set_treasury x (vault w)) (token w)).
Proof.
  intros Hs Hx. apply call_ok.
  unfold dispatch, unit_result, setTreasury.
  cbn [tx_op tx_sender tx_time]. wp_forward. split; reflexivity.
Qed.

(** X23 (a new rate and a new treasury).  After the owner has set the rate
    [x] and the treasury [d], a purchase that commits pays the amount to the
    recipient and then [amt * x / 10000] to [d], records that fee, and takes
    amount plus that fee from the balance; the earlier records of the
    ledger are unchanged. *)
Theorem admin_changes_apply_to_later_purchases
    (w w3 : World T) ts x d s f r amt md ts' id :
  let admin := owner (vault w) in
  let w1 := snd (exec (mkTx admin ts (SetPlatformFee x)) w) in
  let w2 := snd (exec (mkTx admin ts (SetTreasury d)) w1) in
  x <= MAX_PLATFORM_FEE_BPS ->
  d <> 0 ->
  call (purchaseOnBehalf s f r amt md ts') w2 = (Ok id, w3) ->
  exists t1,
    pays (this (vault w)) r amt (token w) = Some t1
    /\ pays (this (vault w)) d (amt * x / BPS_DIVISOR) t1 = Some (token w3)
    /\ purchases (vault w3)
       = purchases (vault w)
         ++ [mkPurchase f s r amt (amt * x / BPS_DIVISOR) ts' md]
    /\ balance (accountOf (vault w3) f)
       = balance (accountOf (vault w) f) - (amt + amt * x / BPS_DIVISOR).
Proof.
  intros admin w1 w2 Hx Hd Hcall. subst admin w1 w2.
  rewrite (exec_setPlatformFee_ok w (owner (vault w)) ts x eq_refl Hx)
    in Hcall.
  cbn [snd] in Hcall.
  rewrite (exec_setTreasury_ok
             (mkWorld (set_platformFeeBps x (vault w)) (token w))
             (owner (vault w)) ts d eq_refl Hd) in Hcall.
  cbn [snd vault token] in Hcall.
  apply purchase_ok_inv in Hcall as (_ & _ & _ & t1 & t2 & P1 & P2 & ->).
  cbn [vault token this treasury set_treasury set_platformFeeBps] in P1, P2.
  unfold feeOf in P2.
  cbn [platformFeeBps set_treasury set_platformFeeBps] in P2.
  exists t1. split; [exact P1|]. split; [exact P2|].
  cbn [vault].
  match goal with
  | |- context [purchased ?v _ _ _ _ _ _] =>
      destruct (purchased_facts v s f r amt md ts')
        as [(Hb & _) (_ & _ & _ & Hled & _)]
  end.
  rewrite Hled, Hb. unfold feeOf.
  cbn [platformFeeBps purchases set_treasury set_platformFeeBps].
  autorewrite with vault. split; reflexivity.
Qed.

(** X24 (deployment).  The constructor refuses a null token address with
    "Invalid USDC address" and a null treasury with "Invalid treasury
    address".  Otherwise the deployer owns the vault, the token and the
    treasury are the arguments, the rate is 200 basis points, the ledger is
    empty, and every withdrawal, every revocation and every purchase
    reverts, whoever sends it. *)
Theorem fresh_vault_holds_nothing
    (deployer self _usdc _treasury : address) (tok : T) :
  (_usdc = 0 ->
   constructor deployer self _usdc _treasury
   = Err (Revert "Invalid USDC address"))
  /\ (_usdc <> 0 -> _treasury = 0 ->
      constructor deployer self _usdc _treasury
      = Err (Revert "Invalid treasury address"))
  /\ (_usdc <> 0 -> _treasury <> 0 ->
      exists v0,
        constructor deployer self _usdc _treasury = Ok v0
        /\ owner v0 = deployer
        /\ usdc v0 = _usdc
        /\ treasury v0 = _treasury
        /\ platformFeeBps v0 = 200
        /\ call getTotalPurchases (mkWorld v0 tok) = (Ok 0, mkWorld v0 tok)
        /\ forall tx,
             match tx_op tx with
             | Withdraw _ | RevokeBot _ | PurchaseOnBehalf _ _ _ _ =>
                 exists e, exec tx (mkWorld v0 tok) = (Err e, mkWorld v0 tok)
             | _ => True
             end).
Proof.
  unfold constructor. repeat match goal with |- _ /\ _ => split end.
  - intros ->. reflexivity.
  - intros Hu ->. destruct (Z.eqb_spec _usdc 0); [contradiction|]. reflexivity.
  - intros Hu Ht.
    destruct (Z.eqb_spec _usdc 0); [contradiction|].
    destruct (Z.eqb_spec _treasury 0); [contradiction|].
    eexists. split; [reflexivity|]. repeat split.
    intros [s ts op].
    match goal with
    | |- context [exec _ ?w0] =>
        destruct (exec_inv (mkTx s ts op) w0) as [[e E]|(t' & E & Hg)]
    end.
    + destruct op; try exact I; exists e; exact E.
    + unfold guard in Hg. cbn [tx_op tx_sender tx_time vault] in Hg.
      destruct op as [x|x|b|b|d p|f r x md|x|x]; try exact I; exfalso.
      * vm_compute in Hg. destruct Hg as [H1 H2].
        destruct x; try discriminate; apply H2; reflexivity.
      * discriminate Hg.
      * destruct Hg as (_ & _ & Hbot & _). discriminate Hbot.
Qed.

End LimitsOverTime.

(** * The further properties on the concrete actors *)

Section MoreExamples.

Import Demo.

(** The worlds of the examples are reached from the deployment. *)
Lemma wf_setup_and_purchase : Forall wf_tx (setup ++ [buy150]).
Proof.
  repeat constructor; vm_compute; intuition discriminate.
Qed.

Lemma reachable_after_purchase : reachable (run (setup ++ [buy150]) world0).
Proof.
  exists deployer, vaultAddr, usdcAddr, treasuryAddr, vault0, token0,
         (setup ++ [buy150]).
  split; [vm_compute; reflexivity|].
  split; [exact wf_setup_and_purchase | reflexivity].
Qed.


Lemma authorize_then_revoke_on_demo :
  let w2 := run [tx fund1 (AuthorizeBot bot1); tx fund1 (RevokeBot bot1)]
                world0 in
  botFlag (accountOf (vault world0) fund1) bot1 = false
  /\ exec (tx fund1 (RevokeBot bot1)) w2
     = (Err (Revert "Bot not authorized"), w2).
Proof.
  split; [vm_compute; reflexivity|].
  refine (proj1 (proj2 (proj2 (proj2 (proj2
    (authorize_then_revoke world0 fund1 noon noon noon bot1 _ _)))))).
  - discriminate.
  - vm_compute. reflexivity.
Defined.

Lemma stranger_cannot_purchase_on_demo :
  botFlag (accountOf (vault limited) fund1) fund2 = false
  /\ call (purchaseOnBehalf fund2 fund1 recipient1 (dollars 1) "svc" noon)
          limited
     = (Err (Revert "Bot not authorized"), limited).
Proof.
  assert (H : botFlag (accountOf (vault limited) fund1) fund2 = false)
    by (vm_compute; reflexivity).
  split; [exact H|].
  refine (proj1 (unauthorized_sender_cannot_purchase limited fund2 fund1
                   recipient1 (dollars 1) "svc" noon _ _) H).
  - discriminate.
  - reflexivity.
Defined.

Lemma limits_stay_ordered_on_demo :
  let a := accountOf (vault (run (setup ++ [buy150]) world0)) fund1 in
  dailySpendingLimit a = dollars 500
  /\ perTransactionLimit a = dollars 150
  /\ (dailySpendingLimit a = 0
      \/ perTransactionLimit a <= dailySpendingLimit a).
Proof.
  split; [vm_compute; reflexivity|]. split; [vm_compute; reflexivity|].
  exact (limits_stay_ordered (run (setup ++ [buy150]) world0) fund1
           reachable_after_purchase).
Defined.

Lemma storage_stays_in_range_on_demo :
  let a := accountOf (vault (run (setup ++ [buy150]) world0)) fund1 in
  balance a = dollars 847 /\ is_uint256 (balance a).
Proof.
  split; [vm_compute; reflexivity|].
  exact (proj1 (storage_stays_in_range (run (setup ++ [buy150]) world0) fund1
                  reachable_after_purchase)).
Defined.

Lemma fee_rate_on_demo :
  let w := run (setup ++ [buy150]) world0 in
  platformFeeBps (vault w) = 200
  /\ 0 <= platformFeeBps (vault w) <= MAX_PLATFORM_FEE_BPS
  /\ treasury (vault w) <> 0.
Proof.
  split; [vm_compute; reflexivity|].
  pose proof (fee_and_treasury_are_owner_controlled
                (run (setup ++ [buy150]) world0) buy150
                reachable_after_purchase) as H.
  cbv zeta in H. split; [exact (proj1 H) | exact (proj1 (proj2 H))].
Defined.

Lemma fee_is_at_most_a_tenth_on_demo :
  let w := run (setup ++ [buy150]) world0 in
  fee <$> purchases (vault w) !! 0%nat = Some (dollars 3)
  /\ Forall well_recorded (purchases (vault w)).
Proof.
  split; [vm_compute; reflexivity|].
  exact (proj1 (fee_is_at_most_a_tenth (run (setup ++ [buy150]) world0)
                  reachable_after_purchase)).
Defined.

Lemma fund_purchases_on_demo :
  let w := run (setup ++ [buy150; buy150]) world0 in
  constructor deployer vaultAddr usdcAddr treasuryAddr = Ok vault0
  /\ positionsFrom fund1 0 (purchases (vault w)) = [0; 1]
  /\ call (getFundPurchases fund1) w
     = (Ok (positionsFrom fund1 0 (purchases (vault w))), w).
Proof.
  assert (H : constructor deployer vaultAddr usdcAddr treasuryAddr = Ok vault0)
    by (vm_compute; reflexivity).
  split; [exact H|]. split; [vm_compute; reflexivity|].
  exact (proj1 (fund_purchases_index_the_ledger deployer vaultAddr usdcAddr
                  treasuryAddr vault0 token0 (setup ++ [buy150; buy150])
                  fund1 H)).
Defined.

Lemma purchase_is_visible_on_demo :
  let buy := call (purchaseOnBehalf bot1 fund1 recipient1 (dollars 150)
                                    "svc" noon) in
  let w' := snd (buy limited) in
  buy limited = (Ok 0, w')
  /\ call (getPurchase 0) w'
     = (Ok (mkPurchase fund1 bot1 recipient1 (dollars 150) (dollars 3) noon
                       "svc"), w').
Proof.
  assert (H : call (purchaseOnBehalf bot1 fund1 recipient1 (dollars 150)
                      "svc" noon) limited
              = (Ok 0, snd (call (purchaseOnBehalf bot1 fund1 recipient1
                                    (dollars 150) "svc" noon) limited)))
    by (vm_compute; reflexivity).
  split; [exact H|].
  exact (proj1 (proj2 (proj2 (proj2
           (purchase_is_visible_in_the_views limited _ bot1 fund1 recipient1
              (dollars 150) "svc" noon 0 H))))).
Defined.

Lemma a_new_day_on_demo :
  let w := run (setup ++ [buy150]) world0 in
  let a := accountOf (vault w) fund1 in
  let w_y := mkWorld (setAccount fund1 (set_todaySpent (dollars 500) a)
                        (vault w)) (token w) in
  let buy ts := call (purchaseOnBehalf bot1 fund1 recipient1 (dollars 150)
                                       "svc" ts) in
  buy noon w_y = (Err (Revert "Exceeds daily limit"), w_y)
  /\ fst (buy (noon + ONE_DAY) w_y) = Ok 1.
Proof.
  split; [vm_compute; reflexivity|].
  pose proof (a_new_day_forgets_the_old_total
                (run (setup ++ [buy150]) world0) bot1 fund1 recipient1
                (dollars 150) "svc" (noon + ONE_DAY) (dollars 500)) as H.
  cbv zeta in H.
  assert (E : call (purchaseOnBehalf bot1 fund1 recipient1 (dollars 150)
                      "svc" (noon + ONE_DAY))
                   (run (setup ++ [buy150]) world0)
              = (Ok 1, run (setup ++ [buy150;
                                      mkTx bot1 (noon + ONE_DAY)
                                        (PurchaseOnBehalf fund1 recipient1
                                           (dollars 150) "svc")]) world0))
    by (vm_compute; reflexivity).
  rewrite E in H. rewrite H; [reflexivity|].
  vm_compute. reflexivity.
Defined.




Lemma limits_count_the_principal_on_demo :
  let w' := snd (call (purchaseOnBehalf bot1 fund1 recipient1 (dollars 150)
                                        "svc" noon) limited) in
  balance (accountOf (vault w') fund1) = dollars 847
  /\ todaySpent (accountOf (vault w') fund1)
     = todaySpent (refreshed (accountOf (vault limited) fund1) noon)
       + dollars 150.
Proof.
  split; [vm_compute; reflexivity|].
  refine (proj1 (limits_count_the_principal_only limited _ bot1 fund1
                   recipient1 (dollars 150) "svc" noon 0 _)).
  vm_compute. reflexivity.
Defined.

Lemma admin_changes_on_demo :
  let w2 := run [tx deployer (SetPlatformFee 500); tx deployer (SetTreasury 5)]
                limited in
  let w3 := snd (call (purchaseOnBehalf bot1 fund1 recipient1 (dollars 100)
                                        "svc" noon) w2) in
  owner (vault limited) = deployer
  /\ exists t1,
       pays vaultAddr recipient1 (dollars 100) (token limited) = Some t1
       /\ pays vaultAddr 5 (dollars 5) t1 = Some (token w3).
Proof.
  split; [vm_compute; reflexivity|].
  destruct (admin_changes_apply_to_later_purchases limited
              (snd (call (purchaseOnBehalf bot1 fund1 recipient1 (dollars 100)
                            "svc" noon)
                         (run [tx deployer (SetPlatformFee 500);
                               tx deployer (SetTreasury 5)] limited)))
              noon 500 5 bot1 fund1 recipient1 (dollars 100) "svc" noon 0)
    as (t1 & P1 & P2 & _).
  - vm_compute. discriminate.
  - discriminate.
  - vm_compute. reflexivity.
  - exists t1. split; [exact P1 | exact P2].
Defined.

End MoreExamples.
